(** * giza: PDF post-processing pipeline and asset synchronisation

    A shallow embedding of [giza/content/post/latex.py] and
    [giza/content/assets.py].  Python strings are [string]s, the process
    environment [os.environ] is a [gmap string string], and every effect of the
    code (environment assignment, [subprocess.call], logging, file copies, git
    operations, tasks added to a [BuildApp]) is threaded through an explicit
    state. *)

From Stdlib Require Import ZArith Ascii String List Bool Lia DecimalString.
From stdpp Require Import base gmap strings list.

Import ListNotations.
Local Open Scope string_scope.
Local Open Scope list_scope.

(** ** Python string primitives used by the two modules *)

Module PyStr.

(** [s[:-n]]: everything but the last [n] characters (empty when the string
    is not longer than [n]). *)
Definition drop_last (n : nat) (s : string) : string :=
  String.substring 0 (String.length s - n) s.

(** [s.startswith(p)]. *)
Definition startswith (s p : string) : bool := String.prefix p s.

(** [s.endswith(suf)]: [s] is [suf], or the tail of [s] ends with [suf]. *)
Fixpoint endswith (s suf : string) : bool :=
  if String.eqb s suf then true
  else match s with
       | EmptyString => false
       | String _ s' => endswith s' suf
       end.

(** [s[n:]]. *)
Fixpoint drop (n : nat) (s : string) : string :=
  match n, s with
  | O, _ => s
  | S _, EmptyString => EmptyString
  | S k, String _ s' => drop k s'
  end.

(** [s.replace('', new)], the degenerate pattern of [str.replace]: [new]
    before every character and once more at the end. *)
Fixpoint intersperse (new s : string) : string :=
  match s with
  | EmptyString => new
  | String c s' => new +:+ String c (intersperse new s')
  end.

(** Left-to-right scan of [str.replace]: [skip] counts the characters of a
    match that are still to be passed over. *)
Fixpoint replace_scan (old new s : string) (skip : nat) : string :=
  match s with
  | EmptyString => EmptyString
  | String c s' =>
      match skip with
      | S k => replace_scan old new s' k
      | O => if String.prefix old s
             then new +:+ replace_scan old new s' (String.length old - 1)
             else String c (replace_scan old new s' 0)
      end
  end.

(** [s.replace(old, new)]: all non-overlapping occurrences, leftmost first. *)
Definition replace (old new s : string) : string :=
  match old with
  | EmptyString => intersperse new s
  | _ => replace_scan old new s 0
  end.

Definition is_space (c : ascii) : bool :=
  let n := nat_of_ascii c in
  (n =? 32)%nat || ((9 <=? n)%nat && (n <=? 13)%nat) || ((28 <=? n)%nat && (n <=? 31)%nat).

(** [s.split()]: the maximal runs of characters that are not whitespace
    (space, the controls 9 to 13 and the separators 28 to 31).  [cur] is the
    word being read, in reverse. *)
Fixpoint split_scan (s : string) (cur : list ascii) : list string :=
  let flush (k : list string) :=
    match cur with
    | [] => k
    | _ => string_of_list_ascii (rev cur) :: k
    end in
  match s with
  | EmptyString => flush []
  | String c s' =>
      if is_space c then flush (split_scan s' [])
      else split_scan s' (c :: cur)
  end.

Definition split (s : string) : list string := split_scan s [].

(** [str(n)] for a non-negative integer and for an exit status. *)
Definition of_nat (n : nat) : string := NilZero.string_of_uint (Nat.to_uint n).
Definition of_Z (z : Z) : string := NilZero.string_of_int (Z.to_int z).

End PyStr.

(** ** [os.path] (POSIX flavour) *)

Module OsPath.

(** [p.rfind(c)], [None] standing for Python's [-1]. *)
Fixpoint rfind (c : ascii) (p : string) : option nat :=
  match p with
  | EmptyString => None
  | String x p' =>
      match rfind c p' with
      | Some k => Some (S k)
      | None => if Ascii.eqb x c then Some 0 else None
      end
  end.

(** [p.rfind('/') + 1]. *)
Definition after_last_sep (p : string) : nat :=
  match rfind "/" p with
  | Some k => S k
  | None => 0
  end.

(** [os.path.basename(p)]. *)
Definition basename (p : string) : string := PyStr.drop (after_last_sep p) p.

Fixpoint all_sep (s : string) : bool :=
  match s with
  | EmptyString => true
  | String c s' => Ascii.eqb c "/" && all_sep s'
  end.

(** [head.rstrip('/')]. *)
Fixpoint rstrip_sep (s : string) : string :=
  match s with
  | EmptyString => EmptyString
  | String c s' =>
      match rstrip_sep s' with
      | EmptyString => if Ascii.eqb c "/" then EmptyString else String c EmptyString
      | r => String c r
      end
  end.

(** [os.path.split(p)]: (head, tail) around the last separator; trailing
    separators are stripped from a head that is not all separators. *)
Definition split (p : string) : string * string :=
  let i := after_last_sep p in
  let head := String.substring 0 i p in
  let tail := PyStr.drop i p in
  (if all_sep head then head else rstrip_sep head, tail).

(** One step of [os.path.join]: an absolute component discards what came
    before; otherwise it is appended, with a separator unless the path so
    far is empty or already ends with one. *)
Definition join2 (path b : string) : string :=
  if PyStr.startswith b "/" then b
  else if String.eqb path "" || PyStr.endswith path "/" then path +:+ b
  else path +:+ "/" +:+ b.

Definition join (a : string) (rest : list string) : string :=
  fold_left join2 rest a.

Fixpoint all_dots (s : string) : bool :=
  match s with
  | EmptyString => true
  | String c s' => Ascii.eqb c "." && all_dots s'
  end.

(** [os.path.splitext(p)]: the extension starts at the last dot, provided
    that dot lies in the last component and some character of the component
    before it is not a dot. *)
Definition splitext (p : string) : string * string :=
  match rfind "." p with
  | None => (p, "")
  | Some d =>
      let f := after_last_sep p in
      if (f <=? d)%nat && negb (all_dots (String.substring f (d - f) p))
      then (String.substring 0 d p, PyStr.drop d p)
      else (p, "")
  end.

End OsPath.

(** ** The world the jobs act on *)

Inductive level := Info | Warning | Error.

(** One [subprocess.call]: the argument vector and the environment the child
    process inherits, that is [os.environ] at the time of the call. *)
Record invocation := {
  inv_args : list string;
  inv_environ : gmap string string
}.

(** A call of [copy_if_needed(source, target, name)]. *)
Record copy_request := {
  copy_source : string;
  copy_target : string;
  copy_name : string
}.

(** [environ] is the process-wide [os.environ]; [calls], [log] and [copies]
    record, oldest first, the external processes started, the records handed
    to the logger and the copies requested. *)
Record world := {
  environ : gmap string string;
  calls : list invocation;
  log : list (level * string);
  copies : list copy_request
}.

Definition setenv (k v : string) (w : world) : world :=
  {| environ := <[k := v]> (environ w); calls := calls w; log := log w; copies := copies w |}.

(** The invocation a command line gives rise to ([cmd.split()] as arguments)
    under an environment. *)
Definition invoke (env : gmap string string) (cmd : string) : invocation :=
  {| inv_args := PyStr.split cmd; inv_environ := env |}.

Definition subprocess_call (args : list string) (w : world) : world :=
  {| environ := environ w;
     calls := calls w ++ [{| inv_args := args; inv_environ := environ w |}];
     log := log w; copies := copies w |}.

Definition logger (l : level) (msg : string) (w : world) : world :=
  {| environ := environ w; calls := calls w; log := log w ++ [(l, msg)]; copies := copies w |}.

Definition copy_if_needed (source target name : string) (w : world) : world :=
  {| environ := environ w; calls := calls w; log := log w;
     copies := copies w ++ [{| copy_source := source; copy_target := target; copy_name := name |}] |}.

(** What a Python function hands back: [None] (a bare [return], or falling off
    the end of the body) or [False]. *)
Inductive retval := RNone | RFalse.

(** ** [_render_tex_into_pdf] *)

Module Latex.

(** The [pdflatex] command line for an output format; [None] for a format
    that is neither ['dvi'] nor ['pdf']. *)
Definition pdflatex_cmd (fn path output_format : string) : option string :=
  if String.eqb output_format "dvi" then
    Some ("pdflatex --output-format dvi --interaction batchmode --output-directory "
            +:+ path +:+ " " +:+ fn)
  else if String.eqb output_format "pdf" then
    Some ("pdflatex --interaction batchmode --output-directory " +:+ path +:+ " " +:+ fn)
  else None.

Definition makeindex_cmd (path base_fn : string) : string :=
  "makeindex -s " +:+ path +:+ "/python.ist " +:+ path +:+ "/" +:+ PyStr.drop_last 4 base_fn +:+ ".idx ".

Definition dvipdf_cmd (path base_fn : string) : string :=
  "cd " +:+ path +:+ "; dvipdf " +:+ PyStr.drop_last 4 base_fn +:+ ".dvi".

(** The list [cmds] as it stands when the loop starts. *)
Definition build_cmds (fn path output_format : string) : option (list string) :=
  match pdflatex_cmd fn path output_format with
  | None => None
  | Some pdflatex =>
      let base_fn := OsPath.basename fn in
      let cmds := [pdflatex; makeindex_cmd path base_fn; pdflatex; pdflatex] in
      Some (if String.eqb output_format "dvi"
            then cmds ++ [dvipdf_cmd path base_fn]
            else cmds)
  end.

Definition msg_stage_ok (idx total : nat) (base_fn : string) (ret : Z) : string :=
  "pdf completed rendering stage " +:+ PyStr.of_nat idx +:+ " of " +:+ PyStr.of_nat total
    +:+ " successfully (" +:+ base_fn +:+ ", " +:+ PyStr.of_Z ret +:+ ").".

Definition msg_early (base_fn : string) : string :=
  "pdf build encountered error early on " +:+ base_fn +:+ ", continuing cautiously.".

Definition msg_fatal (base_fn : string) : string :=
  "pdf build encountered error running pdflatex, investigate on " +:+ base_fn +:+ ". terminating".

Definition msg_format (output_format : string) : string :=
  "not rendering pdf because " +:+ output_format +:+ " is not an output format".

Section Render.

(** Exit status of the external process started at each iteration of the
    loop, by the loop index [idx] (counted from 0). *)
Variable exit_status : nat -> Z.

(** [for idx, cmd in enumerate(cmds)]: [idx] is the index of the head of
    [rest], [total] is [len(cmds)].  The result is [true] when the loop
    runs to its end and [false] when the body returns [False]. *)
Fixpoint run_cmds (total : nat) (base_fn : string) (idx : nat) (rest : list string)
         (w : world) : bool * world :=
  match rest with
  | [] => (true, w)
  | cmd :: rest' =>
      let w1 := subprocess_call (PyStr.split cmd) w in
      let ret := exit_status idx in
      if (ret =? 0)%Z then
        run_cmds total base_fn (S idx) rest'
                 (logger Info (msg_stage_ok idx total base_fn ret) w1)
      else if (idx <=? 1)%nat then
        run_cmds total base_fn (S idx) rest' (logger Warning (msg_early base_fn) w1)
      else
        (false, logger Error cmd (logger Error (msg_fatal base_fn) w1))
  end.

Definition _render_tex_into_pdf (fn deployed_path path output_format : string)
           (w : world) : retval * world :=
  let w := setenv "TEXINPUTS" (".:" +:+ path +:+ ":") w in
  match build_cmds fn path output_format with
  | None => (RNone, logger Error (msg_format output_format) w)
  | Some cmds =>
      let base_fn := OsPath.basename fn in
      match run_cmds (List.length cmds) base_fn 0 cmds w with
      | (false, w') => (RFalse, w')
      | (true, w') =>
          let pdf_fn := fst (OsPath.splitext fn) +:+ ".pdf" in
          (RNone, copy_if_needed pdf_fn deployed_path "pdf" w')
      end
  end.

End Render.

End Latex.

(** ** The task graph and [pdf_tasks] *)

(** The callables that end up as the [job] of a task. *)
Inductive callable := ProcessPage | RenderTexIntoPdf | CreateLink.

(** A compiled pattern and its replacement template, both as written. *)
Definition regex_rule : Type := string * string.

(** Values found in the [args] of a task. *)
Inductive pyarg :=
| AStr (s : string)
| ARule (r : regex_rule)
| ARules (rs : list regex_rule).

Record task := {
  job : callable;
  args : list pyarg;
  dependency : option string;
  target : option string
}.

(** What [app.add] creates below a [BuildApp]: a task, or a nested app with
    children of its own, in the order they were added. *)
#[local] Unset Elimination Schemes.
Inductive node :=
| Task (t : task)
| App (children : list node).
#[local] Set Elimination Schemes.

(** One entry of [conf.system.files.data.pdfs]; [others] holds the keys that
    [pdf_tasks] does not read. *)
Record artifact := {
  output : string;
  tag : string;
  others : list (string * string)
}.

(** The parts of [conf] that [pdf_tasks] reads.  [project_edition] is [None]
    when ['edition' in conf.project] is false, and [pdfs] is [None] when
    ['pdfs' in conf.system.files.data] is false. *)
Record conf := {
  paths_projectroot : string;
  paths_branch_output : string;
  paths_public_site_output : string;
  project_name : string;
  project_edition : option string;
  project_url : string;
  project_tag : string;
  git_branches_current : string;
  pdfs : option (list artifact)
}.

(** [sconf]: the builder name and, when present, the tags of the build. *)
Record sconf := {
  builder : string;
  tags : option (list string)
}.

(** The dictionary [i] once the loop body has filled in its paths. *)
Record descriptor := {
  i_output : string;
  i_tag : string;
  i_source : string;
  i_processed : string;
  i_pdf : string;
  i_deployed : string;
  i_link : string;
  i_path : string
}.

(** The four sub-apps that [pdf_tasks] adds to [app], each with the tasks
    added to it so far.  The Python objects are shared with [app]: what is
    added to them later is seen through [app] as well. *)
Record stages := {
  process_app : list task;
  render_app : list task;
  migrate_app : list task;
  link_app : list task
}.

Module Transformation.

(** Modelled from the spec: [process_page] of [giza.tools.transformation] is
    not among the sources.  The specification has it append one transform
    unit to the group it is given; the unit carries the arguments of the
    transform contract (source path, destination path, rules, copy policy)
    and the builder it was requested for, and no staleness hints are stated
    for it. *)
Definition transform_unit (fn output_fn : string) (regex : pyarg)
           (builder copy : string) : task :=
  {| job := ProcessPage;
     args := [AStr fn; AStr output_fn; regex; AStr copy; AStr builder];
     dependency := None;
     target := None |}.

Definition process_page (fn output_fn : string) (regex : pyarg) (app : list task)
           (builder copy : string) : list task :=
  app ++ [transform_unit fn output_fn regex builder copy].

End Transformation.

Module PdfTasks.

Definition tex_regexes (c : conf) : list regex_rule :=
  [ ("(index|bfcode)\{(.*)--(.*)\}", "\1\{\2-\{-\}\3\}");
    ("\\PYGZsq{}", "'");
    ("\\code\{/(?!.*{}/|etc|usr|data|var|srv|data|bin|dev|opt|proc|24|private)",
     "\code{" +:+ project_url c +:+ "/" +:+ project_tag c +:+ "/") ].

Definition sty_rule : regex_rule :=
  ("\\usepackage\[pdftex\]\{graphicx\}", "\usepackage{graphicx}").

(** The directory sphinx writes tex files to; it differs for editions. *)
Definition latex_dir (target : string) (c : conf) : string :=
  match project_edition c with
  | Some edition =>
      if negb (String.eqb edition (project_name c))
      then OsPath.join (paths_projectroot c) [paths_branch_output c; target +:+ "-" +:+ edition]
      else OsPath.join (paths_projectroot c) [paths_branch_output c; target]
  | None => OsPath.join (paths_projectroot c) [paths_branch_output c; target]
  end.

Definition deploy_path (c : conf) : string :=
  OsPath.join (paths_projectroot c) [paths_public_site_output c].

(** ['tags' in sconf and "offset" in sconf.tags]. *)
Definition is_offset (sc : sconf) : bool :=
  match tags sc with
  | Some ts => existsb (String.eqb "offset") ts
  | None => false
  end.

Definition tagged_name (i : artifact) : string :=
  PyStr.drop_last 4 (output i) +:+ "-" +:+ tag i.

Definition deploy_fn (c : conf) (i : artifact) : string :=
  tagged_name i +:+ "-" +:+ git_branches_current c +:+ ".pdf".

Definition link_name (c : conf) (i : artifact) : string :=
  PyStr.replace ("-" +:+ git_branches_current c) "" (deploy_fn c i).

(** The paths derived for one entry. *)
Definition describe (latex_dir deploy_path : string) (c : conf) (i : artifact) : descriptor :=
  {| i_output := output i;
     i_tag := tag i;
     i_source := OsPath.join latex_dir [output i];
     i_processed := OsPath.join latex_dir [tagged_name i +:+ ".tex"];
     i_pdf := OsPath.join latex_dir [tagged_name i +:+ ".pdf"];
     i_deployed := OsPath.join deploy_path [deploy_fn c i];
     i_link := OsPath.join deploy_path [link_name c i];
     i_path := latex_dir |}.

Definition render_task (output_format : string) (d : descriptor) : task :=
  {| job := RenderTexIntoPdf;
     args := [AStr (i_processed d); AStr (i_deployed d); AStr (i_path d); AStr output_format];
     dependency := None;
     target := Some (i_pdf d) |}.

Definition link_task (deploy_fn : string) (d : descriptor) : task :=
  {| job := CreateLink;
     args := [AStr deploy_fn; AStr (i_link d)];
     dependency := Some (i_deployed d);
     target := Some (i_link d) |}.

Section Assemble.

(** [process_page] of [giza.tools.transformation], which is handed the
    app to add to: [process_page fn output_fn regex app builder copy] is
    that app afterwards. *)
Variable process_page : string -> string -> pyarg -> list task -> string -> string -> list task.

(** [edition_check] of [giza.content.helper]; an entry is skipped exactly
    when it answers [False]. *)
Variable edition_check : artifact -> conf -> bool.

(** The tasks added for one entry, once its paths are known. *)
Definition add_tasks (c : conf) (output_format deploy_fn : string) (d : descriptor)
           (st : stages) : stages :=
  let process_app' :=
    process_page (i_source d) (i_processed d) (ARules (tex_regexes c)) (process_app st)
                 "tex-munge" "ifNeeded" in
  let render_app' := render_app st ++ [render_task output_format d] in
  let link_app' :=
    if negb (String.eqb (i_link d) (i_deployed d))
    then link_app st ++ [link_task deploy_fn d]
    else link_app st in
  {| process_app := process_app';
     render_app := render_app';
     migrate_app := migrate_app st;
     link_app := link_app' |}.

(** The body of [for i in conf.system.files.data.pdfs]. *)
Definition pdf_step (c : conf) (latex_dir deploy_path output_format : string)
           (st : stages) (i : artifact) : stages :=
  if negb (edition_check i c) then st
  else add_tasks c output_format (deploy_fn c i) (describe latex_dir deploy_path c i) st.

Definition pdf_loop (c : conf) (latex_dir deploy_path output_format : string)
           (l : list artifact) (st : stages) : stages :=
  fold_left (pdf_step c latex_dir deploy_path output_format) l st.

(** The special case for offset pdfs, which chooses the output format. *)
Definition offset_case (sc : sconf) (latex_dir : string) (st : stages) : string * stages :=
  if is_offset sc then
    let sty_file := OsPath.join latex_dir ["sphinx.sty"] in
    ("dvi",
     {| process_app :=
          process_page sty_file sty_file (ARule sty_rule) (process_app st)
                       "sphinx-latex" "ifNeeded";
        render_app := render_app st;
        migrate_app := migrate_app st;
        link_app := link_app st |})
  else ("pdf", st).

Definition empty_stages : stages :=
  {| process_app := []; render_app := []; migrate_app := []; link_app := [] |}.

(** The stages as they stand when [pdf_tasks] returns, for the entries [l]. *)
Definition build_stages (sc : sconf) (c : conf) (l : list artifact) : stages :=
  let ldir := latex_dir (builder sc) c in
  let '(output_format, st) := offset_case sc ldir empty_stages in
  pdf_loop c ldir (deploy_path c) output_format l st.

Definition stage_nodes (st : stages) : list node :=
  [ App (map Task (process_app st)); App (map Task (render_app st));
    App (map Task (migrate_app st)); App (map Task (link_app st)) ].

(** [pdf_tasks(sconf, conf, app)], as the children of [app] afterwards. *)
Definition pdf_tasks (sc : sconf) (c : conf) (app : list node) : list node :=
  match pdfs c with
  | None => app
  | Some l => app ++ stage_nodes (build_stages sc c l)
  end.

End Assemble.

End PdfTasks.

(** ** [assets_setup] *)

Module Assets.

(** The operations asked of [GitRepo(path)]. *)
Inductive git_op :=
| Pull (repo_dir branch : string)
| Clone (repo_dir remote repo_path branch : string).

(** The file system as [assets_setup] sees it, the git operations started
    and the log, oldest first. *)
Record fs_world := {
  exists_ : string -> bool;
  git_ops : list git_op;
  asset_log : list (level * string)
}.

Definition git (op : git_op) (w : fs_world) : fs_world :=
  {| exists_ := exists_ w; git_ops := git_ops w ++ [op]; asset_log := asset_log w |}.

Definition log_info (msg : string) (w : fs_world) : fs_world :=
  {| exists_ := exists_ w; git_ops := git_ops w; asset_log := asset_log w ++ [(Info, msg)] |}.

Section Setup.

(** Whether a git operation completes; when it does not, [GitRepo] raises
    and the exception leaves [assets_setup]. *)
Variable git_ok : git_op -> bool.

(** [None] stands for the exception. *)
Definition assets_setup (path branch repo : string) (w : fs_world)
  : option unit * fs_world :=
  if exists_ w path then
    let op := Pull path branch in
    let w1 := git op w in
    if git_ok op
    then (Some tt, log_info ("updated " +:+ path +:+ " repository") w1)
    else (None, w1)
  else
    let '(base, name) := OsPath.split path in
    let op := Clone base repo name branch in
    let w1 := git op w in
    if git_ok op
    then (Some tt, log_info ("cloned " +:+ branch +:+ " branch from repo " +:+ repo) w1)
    else (None, w1).

End Setup.

End Assets.


(** ** [assets_tasks] and [assets_clean] *)

Module AssetTasks.

(** One entry of [conf.assets]. *)
Record asset := {
  asset_path : string;
  asset_branch : string;
  asset_repository : string
}.

(** The parts of [conf] that the two functions read; [assets] is [None] when
    [conf.assets is None]. *)
Record assets_conf := {
  projectroot : string;
  assets : option (list asset)
}.

Inductive asset_job := AssetsSetup | RmRf.

(** The [args] of a task: the keyword dictionary of a setup task, the list of
    a cleanup task. *)
Inductive asset_args :=
| Kwargs (kw : gmap string string)
| Positional (l : list string).

Record asset_task := {
  a_job : asset_job;
  a_args : asset_args
}.

(** The tasks of the app the functions add to, and the debug records handed
    to the logger, oldest first. *)
Record app_state := {
  tasks : list asset_task;
  debug_log : list string
}.

(** The body of the loop of [assets_tasks]. *)
Definition add_setup (root : string) (st : app_state) (a : asset) : app_state :=
  let path := OsPath.join root [asset_path a] in
  {| tasks := tasks st ++
       [{| a_job := AssetsSetup;
           a_args := Kwargs {[ "path" := path;
                               "branch" := asset_branch a;
                               "repo" := asset_repository a ]} |}];
     debug_log := debug_log st ++ ["adding asset resolution job for " +:+ path] |}.

Definition assets_tasks (c : assets_conf) (st : app_state) : app_state :=
  match assets c with
  | Some l => fold_left (add_setup (projectroot c)) l st
  | None => st
  end.

(** The body of the loop of [assets_clean]. *)
Definition add_clean (root : string) (st : app_state) (a : asset) : app_state :=
  let path := OsPath.join root [asset_path a] in
  {| tasks := tasks st ++ [{| a_job := RmRf; a_args := Positional [path] |}];
     debug_log := debug_log st ++ ["adding asset cleanup " +:+ path] |}.

Definition assets_clean (c : assets_conf) (st : app_state) : app_state :=
  match assets c with
  | Some l => fold_left (add_clean (projectroot c)) l st
  | None => st
  end.

(** The path a task acts on: the [path] keyword of a setup task, the only
    argument of a cleanup task. *)
Definition task_path (t : asset_task) : option string :=
  match a_args t with
  | Kwargs kw => kw !! "path"
  | Positional [p] => Some p
  | Positional _ => None
  end.

End AssetTasks.

(** ** Concrete inputs used in the examples *)

Definition fresh_world : world :=
  {| environ := ∅; calls := []; log := []; copies := [] |}.

(** Every external process succeeds. *)
Definition all_succeed : nat -> Z := fun _ => 0%Z.

(** Only the process started at index [k] fails, with status 1. *)
Definition fails_at (k : nat) : nat -> Z := fun idx => if (idx =? k)%nat then 1%Z else 0%Z.

(** Exit statuses of a run in which the processes started at indices 1 and 3
    fail. *)
Definition fails_at_1_and_3 : nat -> Z :=
  fun idx => if ((idx =? 1) || (idx =? 3))%nat then 1%Z else 0%Z.

Definition manual_entry : artifact :=
  {| output := "manual.tex"; tag := "v1"; others := [] |}.

Definition enterprise_entry : artifact :=
  {| output := "enterprise.tex"; tag := "v1"; others := [("edition", "enterprise")] |}.

Definition sample_conf : conf :=
  {| paths_projectroot := "/docs";
     paths_branch_output := "build/release";
     paths_public_site_output := "build/public";
     project_name := "manual";
     project_edition := None;
     project_url := "http://docs.example.org";
     project_tag := "manual";
     git_branches_current := "release";
     pdfs := Some [manual_entry; enterprise_entry] |}.

(** A descriptor whose link path is its deployed path. *)
Definition same_path_descriptor : descriptor :=
  {| i_output := "manual.tex";
     i_tag := "v1";
     i_source := "/docs/build/release/latex/manual.tex";
     i_processed := "/docs/build/release/latex/manual-v1.tex";
     i_pdf := "/docs/build/release/latex/manual-v1.pdf";
     i_deployed := "/docs/build/public/manual-v1.pdf";
     i_link := "/docs/build/public/manual-v1.pdf";
     i_path := "/docs/build/release/latex" |}.

Definition sample_sconf : sconf := {| builder := "latex"; tags := None |}.

(** An edition check for the examples: an entry that names an edition is
    accepted only when the project is built for that edition. *)
Definition sample_edition_check (i : artifact) (c : conf) : bool :=
  match List.find (fun kv => String.eqb (fst kv) "edition") (others i) with
  | None => true
  | Some (_, e) =>
      match project_edition c with
      | Some e' => String.eqb e e'
      | None => false
      end
  end.

(** Assets for the examples: one under the project root, one with an
    absolute path. *)
Definition docs_assets : AssetTasks.asset :=
  {| AssetTasks.asset_path := "source/assets";
     AssetTasks.asset_branch := "master";
     AssetTasks.asset_repository := "git@example.org:docs/assets.git" |}.

Definition shared_assets : AssetTasks.asset :=
  {| AssetTasks.asset_path := "/srv/shared/assets";
     AssetTasks.asset_branch := "master";
     AssetTasks.asset_repository := "git@example.org:docs/shared.git" |}.

Definition sample_assets_conf : AssetTasks.assets_conf :=
  {| AssetTasks.projectroot := "/docs";
     AssetTasks.assets := Some [docs_assets; shared_assets] |}.

Definition empty_app : AssetTasks.app_state :=
  {| AssetTasks.tasks := []; AssetTasks.debug_log := [] |}.

(** A file system on which nothing exists yet. *)
Definition empty_fs : Assets.fs_world :=
  {| Assets.exists_ := fun _ => false; Assets.git_ops := []; Assets.asset_log := [] |}.

(** Every git operation completes. *)
Definition git_always_ok : Assets.git_op -> bool := fun _ => true.

(** * Properties *)

(** ** Strings and paths *)

Section StringFacts.

Lemma endswith_refl s : PyStr.endswith s s = true.
Proof. destruct s; cbn [PyStr.endswith]; by rewrite String.eqb_refl. Qed.

Lemma endswith_app p s : PyStr.endswith (p +:+ s) s = true.
Proof.
  induction p as [|a p IH].
  - apply endswith_refl.
  - change (String a p +:+ s) with (String a (p +:+ s)).
    cbn [PyStr.endswith]. rewrite IH. by destruct (String.eqb _ _).
Qed.

(** [endswith] holds exactly of the strings that are some prefix followed by
    the suffix. *)
Lemma endswith_spec s suf : PyStr.endswith s suf = true <-> exists p, s = p +:+ suf.
Proof.
  split.
  - induction s as [|a s IH]; cbn [PyStr.endswith].
    + destruct (String.eqb "" suf) eqn:E; [|done].
      apply String.eqb_eq in E as <-. by exists "".
    + destruct (String.eqb (String a s) suf) eqn:E.
      * apply String.eqb_eq in E as <-. by exists "".
      * intros H. destruct (IH H) as [p ->]. by exists (String a p).
  - intros [p ->]. apply endswith_app.
Qed.

Lemma app_assoc_str (a b c : string) : (a +:+ b) +:+ c = a +:+ (b +:+ c).
Proof.
  induction a as [|x a IH]; [done|].
  change (String x ((a +:+ b) +:+ c) = String x (a +:+ (b +:+ c))). by rewrite IH.
Qed.

Lemma app_inj_str (a x y : string) : a +:+ x = a +:+ y -> x = y.
Proof. apply String.app_inj. Qed.

(** A relative component ends the joined path, whatever came before. *)
Lemma join2_relative path b :
  PyStr.startswith b "/" = false ->
  OsPath.join2 path b = path +:+ b \/ OsPath.join2 path b = (path +:+ "/") +:+ b.
Proof.
  intros Hb. unfold OsPath.join2. rewrite Hb.
  destruct (_ || _); [by left | right; by rewrite app_assoc_str].
Qed.

Lemma join2_endswith path b :
  PyStr.startswith b "/" = false -> PyStr.endswith (OsPath.join2 path b) b = true.
Proof.
  intros Hb. destruct (join2_relative path b Hb) as [-> | ->]; apply endswith_app.
Qed.

(** Two relative components joined to the same directory stay distinct. *)
Lemma join2_relative_inj path a b :
  PyStr.startswith a "/" = false -> PyStr.startswith b "/" = false ->
  OsPath.join2 path a = OsPath.join2 path b -> a = b.
Proof.
  intros Ha Hb. unfold OsPath.join2. rewrite Ha, Hb.
  destruct (_ || _).
  - apply app_inj_str.
  - intros H. apply app_inj_str in H. by injection H.
Qed.

End StringFacts.

(** ** The render loop *)

Section RenderFacts.

Import Latex.

Variable exit_status : nat -> Z.

Lemma run_cmds_log total base rest : forall idx w b w',
  run_cmds exit_status total base idx rest w = (b, w') ->
  exists ls, log w' = log w ++ ls.
Proof.
  induction rest as [|cmd rest IH]; intros idx w b w' H; simpl in H.
  - inversion H; subst. exists []. by rewrite app_nil_r.
  - destruct (exit_status idx =? 0)%Z; [|destruct (idx <=? 1)%nat].
    + apply IH in H as [ls Hls]. simpl in Hls. exists ((Info, msg_stage_ok idx total base (exit_status idx)) :: ls).
      rewrite Hls. by rewrite <- app_assoc.
    + apply IH in H as [ls Hls]. simpl in Hls. exists ((Warning, msg_early base) :: ls).
      rewrite Hls. by rewrite <- app_assoc.
    + inversion H; subst. simpl. eexists. by rewrite <- app_assoc.
Qed.

(** What one run of the loop does: it leaves the environment and the copies
    alone and starts the first [n] commands, where [n] covers at least the
    indices up to 2 and stops at the first failing index from 2 on. *)
Lemma run_cmds_spec total base rest : forall idx w b w',
  run_cmds exit_status total base idx rest w = (b, w') ->
  environ w' = environ w /\ copies w' = copies w /\
  exists n, n <= length rest /\
    calls w' = calls w ++ (invoke (environ w) <$> take n rest) /\
    (b = true -> n = length rest) /\
    (forall j, j < length rest -> idx + j <= 2 -> j < n) /\
    (forall j, j < n -> 2 <= idx + j -> exit_status (idx + j) <> 0%Z ->
               S j = n /\ b = false) /\
    (forall j, j < n -> idx + j <= 1 -> exit_status (idx + j) <> 0%Z ->
               log w' !! (length (log w) + j) = Some (Warning, msg_early base)) /\
    (b = false -> exists j, S j = n /\ 2 <= idx + j /\ exit_status (idx + j) <> 0%Z).
Proof.
  induction rest as [|cmd rest IH]; intros idx w b w' H; simpl in H.
  - inversion H; subst. repeat split; trivial.
    exists 0. simpl. rewrite app_nil_r. repeat split; trivial; intros; (lia || done).
  - assert (Hstep : forall l msg,
               run_cmds exit_status total base (S idx) rest
                        (logger l msg (subprocess_call (PyStr.split cmd) w)) = (b, w') ->
               ((exit_status idx = 0%Z /\ l = Info) \/ (idx <= 1 /\ l = Warning /\ msg = msg_early base)) ->
               environ w' = environ w /\ copies w' = copies w /\
               exists n, n <= length (cmd :: rest) /\
                 calls w' = calls w ++ (invoke (environ w) <$> take n (cmd :: rest)) /\
                 (b = true -> n = length (cmd :: rest)) /\
                 (forall j, j < length (cmd :: rest) -> idx + j <= 2 -> j < n) /\
                 (forall j, j < n -> 2 <= idx + j -> exit_status (idx + j) <> 0%Z ->
                            S j = n /\ b = false) /\
                 (forall j, j < n -> idx + j <= 1 -> exit_status (idx + j) <> 0%Z ->
                            log w' !! (length (log w) + j) = Some (Warning, msg_early base)) /\
                 (b = false ->
                  exists j, S j = n /\ 2 <= idx + j /\ exit_status (idx + j) <> 0%Z)).
    { intros l msg Hrun Hcase.
      pose proof (run_cmds_log _ _ _ _ _ _ _ Hrun) as [ls Hls].
      apply IH in Hrun as (Henv & Hcp & n & Hn & Hcalls & Hb & Hmin & Hfatal & Hwarn & Hfail).
      simpl in Henv, Hcp, Hcalls, Hls, Hwarn.
      split; [done|]. split; [done|].
      exists (S n). simpl. repeat split.
      - lia.
      - rewrite Hcalls. by rewrite <- app_assoc.
      - intros Hbt. rewrite (Hb Hbt). done.
      - intros [|j] Hj Hle; [lia|]. assert (j < n); [apply Hmin; lia | lia].
      - destruct j as [|j].
        + replace (idx + 0) with idx in * by lia.
          destruct Hcase as [[Hz _] | [Hi _]]; [congruence | lia].
        + replace (idx + S j) with (S idx + j) in * by lia.
          assert (S j = n /\ b = false) as [? ?]; [apply Hfatal; [lia | done | done] | lia].
      - destruct j as [|j].
        + replace (idx + 0) with idx in * by lia.
          destruct Hcase as [[Hz _] | [Hi _]]; [congruence | lia].
        + replace (idx + S j) with (S idx + j) in * by lia.
          apply (Hfatal j); [lia | done | done].
      - intros j Hj Hle Hne. destruct j as [|j].
        + replace (idx + 0) with idx in * by lia.
          destruct Hcase as [[Hz _] | (_ & -> & ->)]; [congruence|].
          rewrite Hls. rewrite <- app_assoc. simpl.
          rewrite lookup_app_r by lia.
          replace (length (log w) + 0 - length (log w)) with 0 by lia. done.
        + replace (idx + S j) with (S idx + j) in * by lia.
          rewrite length_app in Hwarn. simpl in Hwarn.
          replace (length (log w) + S j) with (length (log w) + 1 + j) by lia.
          apply Hwarn; [lia | done | done].
      - intros Hbf. destruct (Hfail Hbf) as (j & Hj & Hle & Hne).
        exists (S j). replace (idx + S j) with (S idx + j) by lia. repeat split; [lia | lia | done]. }
    destruct (exit_status idx =? 0)%Z eqn:Hret; [|destruct (idx <=? 1)%nat eqn:Hidx].
    + apply Z.eqb_eq in Hret. eapply Hstep; [exact H | left; done].
    + apply Nat.leb_le in Hidx. eapply Hstep; [exact H | right; done].
    + apply Nat.leb_gt in Hidx. inversion H; subst; clear H. simpl.
      split; [done|]. split; [done|].
      apply Z.eqb_neq in Hret.
      exists 1. simpl. repeat split; try done; try lia.
      intros _. exists 0. replace (idx + 0) with idx by lia. repeat split; [lia | done].
Qed.


Lemma build_cmds_unsupported fn path output_format :
  output_format <> "dvi" -> output_format <> "pdf" ->
  build_cmds fn path output_format = None.
Proof.
  intros Hd Hp. unfold build_cmds, pdflatex_cmd.
  apply String.eqb_neq in Hd, Hp. by rewrite Hd, Hp.
Qed.

(** An unsupported format: the environment is set, the error is logged, and
    the function returns [None] having started nothing. *)
Lemma render_unsupported fn deployed_path path output_format w :
  output_format <> "dvi" -> output_format <> "pdf" ->
  _render_tex_into_pdf exit_status fn deployed_path path output_format w =
    (RNone, logger Error (msg_format output_format)
                   (setenv "TEXINPUTS" (".:" +:+ path +:+ ":") w)).
Proof.
  intros Hd Hp. unfold _render_tex_into_pdf.
  by rewrite (build_cmds_unsupported _ _ _ Hd Hp).
Qed.

(** ** C1 *)


End RenderFacts.


Section RenderClaims.

Import Latex.

(** A run in which every process succeeds starts every command, returns
    [None] and requests the copy of the rendered file. *)
Lemma render_all_succeed fn deployed_path path output_format cmds w :
  build_cmds fn path output_format = Some cmds ->
  exists w', _render_tex_into_pdf all_succeed fn deployed_path path output_format w = (RNone, w') /\
    calls w' = calls w ++ (invoke (<["TEXINPUTS" := ".:" +:+ path +:+ ":"]> (environ w)) <$> cmds) /\
    copies w' = copies w ++ [{| copy_source := fst (OsPath.splitext fn) +:+ ".pdf";
                                copy_target := deployed_path;
                                copy_name := "pdf" |}].
Proof.
  intros Hcmds. unfold _render_tex_into_pdf. rewrite Hcmds.
  destruct (run_cmds _ _ _ _ _ _) as [b w1] eqn:Hloop.
  apply run_cmds_spec in Hloop
    as (Henv & Hcp & n & Hn & Hcalls & Hb & Hmin & Hfatal & Hwarn & Hfail).
  simpl in Henv, Hcp, Hcalls.
  destruct b.
  - eexists. split; [done|]. simpl. rewrite Hcalls, Hcp, (Hb eq_refl).
    by rewrite firstn_all.
  - destruct (Hfail eq_refl) as (j & _ & _ & Hne). by destruct Hne.
Qed.

(** ** C2 *)

(** C2, as stated, fails: for the ['pdf'] format the sequence does not have
    3 commands, and for ['dvi'] it does not have 4. *)
Lemma build_cmds_length_counterexample :
  length <$> build_cmds "build/latex/manual-v1.tex" "build/latex" "pdf" <> Some 3 /\
  length <$> build_cmds "build/latex/manual-v1.tex" "build/latex" "dvi" <> Some 4.
Proof. split; vm_compute; discriminate. Qed.

(** C2, amended. The sequence has 4 commands for ['pdf'] (pdflatex,
    makeindex, pdflatex, pdflatex) and 5 for ['dvi']: the same four passes
    followed by one extra last entry, the command line
    [cd <path>; dvipdf <stem>.dvi]; when every process succeeds, a call
    starts exactly that many. *)
Theorem build_cmds_shape fn deployed_path path w :
  let base_fn := OsPath.basename fn in
  (exists p, pdflatex_cmd fn path "pdf" = Some p /\
     build_cmds fn path "pdf" = Some [p; makeindex_cmd path base_fn; p; p] /\
     length (calls (snd (_render_tex_into_pdf all_succeed fn deployed_path path "pdf" w)))
       = length (calls w) + 4) /\
  (exists p, pdflatex_cmd fn path "dvi" = Some p /\
     build_cmds fn path "dvi"
       = Some [p; makeindex_cmd path base_fn; p; p; dvipdf_cmd path base_fn] /\
     length (calls (snd (_render_tex_into_pdf all_succeed fn deployed_path path "dvi" w)))
       = length (calls w) + 5).
Proof.
  split; eexists; (split; [reflexivity|]); (split; [reflexivity|]).
  - destruct (render_all_succeed fn deployed_path path "pdf" _ w eq_refl)
      as (w' & -> & Hcalls & _).
    simpl. rewrite Hcalls, length_app, length_fmap. done.
  - destruct (render_all_succeed fn deployed_path path "dvi" _ w eq_refl)
      as (w' & -> & Hcalls & _).
    simpl. rewrite Hcalls, length_app, length_fmap. done.
Qed.

(** ** C3 *)

(** C3, at the format ['epub']: the error is logged, no process is started
    and no copy is requested, but the value returned is [None], which is
    also what a fully successful run returns; [False], the value of the
    fatal path, is not returned. *)
Theorem render_epub_returns_none :
  let render es fmt :=
    _render_tex_into_pdf es "build/latex/manual-v1.tex" "public/manual-v1-release.pdf"
                         "build/latex" fmt fresh_world in
  fst (render all_succeed "epub") = RNone /\
  calls (snd (render all_succeed "epub")) = [] /\
  copies (snd (render all_succeed "epub")) = [] /\
  log (snd (render all_succeed "epub"))
    = [(Error, "not rendering pdf because epub is not an output format")] /\
  fst (render all_succeed "pdf") = fst (render all_succeed "epub") /\
  fst (render (fails_at 2) "pdf") = RFalse /\
  fst (render all_succeed "epub") <> RFalse.
Proof. vm_compute. repeat split; discriminate. Qed.

(** ** C6 *)

(** C6, as stated, fails: after a call has returned, the process
    environment still holds the search path that the call has set. *)
Lemma texinputs_outlives_call :
  let w' := snd (_render_tex_into_pdf all_succeed "build/latex/manual-v1.tex"
                   "public/manual-v1-release.pdf" "build/latex" "pdf" fresh_world) in
  environ fresh_world !! "TEXINPUTS" = None /\
  environ w' !! "TEXINPUTS" = Some ".:build/latex:" /\
  environ w' <> environ fresh_world.
Proof.
  split; [done|]. split; [by vm_compute|].
  intros H. apply (f_equal (fun m => m !! "TEXINPUTS")) in H. vm_compute in H. discriminate.
Qed.

(** C6, amended. Every call assigns [".:" + path + ":"] to [TEXINPUTS] in
    the process environment, whatever else happens; every process the call
    starts inherits that environment, and the assignment is still there when
    the call returns (no other variable is touched). *)
Theorem render_sets_texinputs exit_status fn deployed_path path output_format w :
  let w' := snd (_render_tex_into_pdf exit_status fn deployed_path path output_format w) in
  environ w' = <["TEXINPUTS" := ".:" +:+ path +:+ ":"]> (environ w) /\
  exists started, calls w' = calls w ++ started /\
    Forall (fun i => inv_environ i = environ w') started.
Proof.
  unfold _render_tex_into_pdf.
  destruct (build_cmds fn path output_format) as [cmds|]; simpl.
  - destruct (run_cmds _ _ _ _ _ _) as [b w1] eqn:Hloop.
    apply run_cmds_spec in Hloop as (Henv & _ & n & _ & Hcalls & _).
    simpl in Henv, Hcalls.
    destruct b; simpl in *; (split; [done|]); eexists; (split; [exact Hcalls|]);
      rewrite Henv; apply Forall_fmap, Forall_forall; done.
  - split; [done|]. exists []. by rewrite app_nil_r.
Qed.

End RenderClaims.

(** ** The task graph *)

Section AssembleFacts.

Import PdfTasks.

Variable process_page : string -> string -> pyarg -> list task -> string -> string -> list task.
Variable edition_check : artifact -> conf -> bool.

Abbreviation pdf_step := (PdfTasks.pdf_step process_page edition_check).
Abbreviation pdf_loop := (PdfTasks.pdf_loop process_page edition_check).
Abbreviation build_stages := (PdfTasks.build_stages process_page edition_check).
Abbreviation pdf_tasks := (PdfTasks.pdf_tasks process_page edition_check).

Lemma pdf_step_rejected c ldir dpath fmt st i :
  edition_check i c = false -> pdf_step c ldir dpath fmt st i = st.
Proof. intros H. unfold PdfTasks.pdf_step. by rewrite H. Qed.

Lemma pdf_step_accepted c ldir dpath fmt st i :
  edition_check i c = true ->
  pdf_step c ldir dpath fmt st i
    = add_tasks process_page c fmt (deploy_fn c i) (describe ldir dpath c i) st.
Proof. intros H. unfold PdfTasks.pdf_step. by rewrite H. Qed.

Lemma pdf_loop_app c ldir dpath fmt l1 l2 st :
  pdf_loop c ldir dpath fmt (l1 ++ l2) st
    = pdf_loop c ldir dpath fmt l2 (pdf_loop c ldir dpath fmt l1 st).
Proof. apply fold_left_app. Qed.

Lemma pdf_step_migrate c ldir dpath fmt st i :
  migrate_app (pdf_step c ldir dpath fmt st i) = migrate_app st.
Proof. unfold PdfTasks.pdf_step. by destruct (negb _). Qed.

Lemma pdf_loop_migrate c ldir dpath fmt l : forall st,
  migrate_app (pdf_loop c ldir dpath fmt l st) = migrate_app st.
Proof.
  unfold PdfTasks.pdf_loop.
  induction l as [|i l IH]; intros st; [done|].
  simpl. by rewrite IH, pdf_step_migrate.
Qed.

Lemma offset_case_migrate sc ldir st :
  migrate_app (snd (offset_case process_page sc ldir st)) = migrate_app st.
Proof. unfold offset_case. by destruct (is_offset sc). Qed.

Lemma build_stages_migrate sc c l : migrate_app (build_stages sc c l) = [].
Proof.
  unfold PdfTasks.build_stages.
  pose proof (offset_case_migrate sc (latex_dir (builder sc) c) empty_stages) as H.
  destruct (offset_case _ _ _ _) as [fmt st]. simpl in H.
  by rewrite pdf_loop_migrate.
Qed.

(** Whatever the paths of a descriptor, [add_tasks] adds a link task exactly
    when the link path differs from the deployed path. *)
Lemma add_tasks_link c fmt dfn d st :
  link_app (add_tasks process_page c fmt dfn d st)
    = link_app st ++
      (if String.eqb (i_link d) (i_deployed d) then [] else [link_task dfn d]).
Proof.
  unfold add_tasks. simpl.
  destruct (String.eqb _ _); simpl; [by rewrite app_nil_r | done].
Qed.

(** The link group grows by what each accepted entry asks for. *)
Lemma pdf_step_link c ldir dpath fmt st i :
  edition_check i c = true ->
  let d := describe ldir dpath c i in
  link_app (pdf_step c ldir dpath fmt st i)
    = link_app st ++
      (if String.eqb (i_link d) (i_deployed d) then []
       else [link_task (deploy_fn c i) d]).
Proof.
  intros H d. rewrite pdf_step_accepted by done. apply add_tasks_link.
Qed.

Lemma pdf_loop_link c ldir dpath fmt l : forall st,
  link_app (pdf_loop c ldir dpath fmt l st)
    = link_app st ++
      flat_map (fun i => let d := describe ldir dpath c i in
                         if String.eqb (i_link d) (i_deployed d) then []
                         else [link_task (deploy_fn c i) d])
               (List.filter (fun i => edition_check i c) l).
Proof.
  unfold PdfTasks.pdf_loop.
  induction l as [|i l IH]; intros st; simpl; [by rewrite app_nil_r|].
  rewrite IH. destruct (edition_check i c) eqn:Hec.
  - rewrite pdf_step_link by done. simpl. by rewrite <- app_assoc.
  - by rewrite pdf_step_rejected.
Qed.

Lemma offset_case_link sc ldir st :
  link_app (snd (offset_case process_page sc ldir st)) = link_app st.
Proof. unfold offset_case. by destruct (is_offset sc). Qed.

Example add_tasks_same_path :
  link_app (add_tasks process_page sample_conf "pdf" "manual-v1.pdf" same_path_descriptor
              empty_stages) = [].
Proof. by rewrite add_tasks_link. Qed.

(** ** C4 *)

(** C4. For an entry that passes the edition check, the loop body leaves
    the link group as it is when the link path equals the deployed path, and
    otherwise appends exactly one task to it, whose job is [create_link],
    whose dependency is the deployed path and whose target is the link
    path.  The link group of the stages built for a collection consists of
    these tasks, for the accepted entries in their order, and of nothing
    else. *)
Theorem link_unit_iff_paths_differ sc c ldir dpath fmt st l i :
  edition_check i c = true ->
  let link_units := fun ldir dpath i =>
    let d := describe ldir dpath c i in
    if String.eqb (i_link d) (i_deployed d) then []
    else [ {| job := CreateLink;
              args := [AStr (deploy_fn c i); AStr (i_link d)];
              dependency := Some (i_deployed d);
              target := Some (i_link d) |} ] in
  link_app (pdf_step c ldir dpath fmt st i) = link_app st ++ link_units ldir dpath i /\
  link_app (build_stages sc c l)
    = flat_map (link_units (latex_dir (builder sc) c) (deploy_path c))
               (List.filter (fun i => edition_check i c) l).
Proof.
  intros H link_units. split; [by apply pdf_step_link|].
  unfold PdfTasks.build_stages.
  pose proof (offset_case_link sc (latex_dir (builder sc) c) empty_stages) as Ho.
  destruct (offset_case _ _ _ _) as [fmt' st']. simpl in Ho.
  by rewrite pdf_loop_link, Ho.
Qed.

(** ** C8 *)

(** C8. An entry that the edition check rejects leaves all four groups as
    they are, so the stages built for a collection are those built for the
    collection without it, and so is the graph. *)
Theorem rejected_artifact_adds_nothing sc c app l1 B l2 :
  edition_check B c = false ->
  (forall ldir dpath fmt st, pdf_step c ldir dpath fmt st B = st) /\
  build_stages sc c (l1 ++ B :: l2) = build_stages sc c (l1 ++ l2) /\
  (pdfs c = Some (l1 ++ B :: l2) ->
   pdf_tasks sc c app = app ++ stage_nodes (build_stages sc c (l1 ++ l2))).
Proof.
  intros H.
  assert (Hb : build_stages sc c (l1 ++ B :: l2) = build_stages sc c (l1 ++ l2)).
  { unfold PdfTasks.build_stages. destruct (offset_case _ _ _ _) as [fmt st].
    rewrite !pdf_loop_app. simpl. by rewrite pdf_step_rejected. }
  split; [intros; by apply pdf_step_rejected|]. split; [done|].
  intros Hp. unfold PdfTasks.pdf_tasks. by rewrite Hp, Hb.
Qed.

(** ** C10 *)

(** C10. Nothing is ever added to the third (migrate) group: it is empty in
    the stages built for any collection, hence in the graph; the copy to the
    deployed path is requested by the render job itself once every command
    has succeeded, for either format. *)
Theorem migrate_group_empty sc c app :
  (forall l, migrate_app (build_stages sc c l) = []) /\
  (pdf_tasks sc c app = app \/
   exists p r k, pdf_tasks sc c app = app ++ [App p; App r; App []; App k]) /\
  (forall fn deployed_path path w,
     let copy := {| copy_source := fst (OsPath.splitext fn) +:+ ".pdf";
                    copy_target := deployed_path;
                    copy_name := "pdf" |} in
     copies (snd (Latex._render_tex_into_pdf all_succeed fn deployed_path path "pdf" w))
       = copies w ++ [copy] /\
     copies (snd (Latex._render_tex_into_pdf all_succeed fn deployed_path path "dvi" w))
       = copies w ++ [copy]).
Proof.
  split; [intros; apply build_stages_migrate|]. split.
  - unfold PdfTasks.pdf_tasks. destruct (pdfs c) as [l|]; [right | by left].
    unfold stage_nodes. rewrite build_stages_migrate. by do 3 eexists.
  - intros fn deployed_path path w copy. split.
    + destruct (render_all_succeed fn deployed_path path "pdf" _ w eq_refl)
        as (w' & -> & _ & Hcp). done.
    + destruct (render_all_succeed fn deployed_path path "dvi" _ w eq_refl)
        as (w' & -> & _ & Hcp). done.
Qed.

(** ** C5 *)

Lemma join_single a b : OsPath.join a [b] = OsPath.join2 a b.
Proof. reflexivity. Qed.

(** C5. For the entry with output [manual.tex] and tag [v1] on branch
    [release], whatever the directories: the processed path is the tex
    directory joined with [manual-v1.tex], the deployed path is the deploy
    directory joined with [manual-v1-release.pdf], the link path is the
    deploy directory joined with [manual-v1.pdf], each ending in that file
    name; the link path differs from the deployed path, and the loop body
    adds the link task for it. *)
Theorem manual_v1_release_paths c ldir dpath fmt st i :
  output i = "manual.tex" -> tag i = "v1" -> git_branches_current c = "release" ->
  edition_check i c = true ->
  let d := describe ldir dpath c i in
  i_processed d = OsPath.join ldir ["manual-v1.tex"] /\
  PyStr.endswith (i_processed d) "manual-v1.tex" = true /\
  i_deployed d = OsPath.join dpath ["manual-v1-release.pdf"] /\
  PyStr.endswith (i_deployed d) "manual-v1-release.pdf" = true /\
  i_link d = OsPath.join dpath ["manual-v1.pdf"] /\
  PyStr.endswith (i_link d) "manual-v1.pdf" = true /\
  i_link d <> i_deployed d /\
  link_app (pdf_step c ldir dpath fmt st i)
    = link_app st ++ [ {| job := CreateLink;
                          args := [AStr "manual-v1-release.pdf"; AStr (i_link d)];
                          dependency := Some (i_deployed d);
                          target := Some (i_link d) |} ].
Proof.
  intros Ho Ht Hb Hec d.
  assert (Htn : tagged_name i = "manual-v1")
    by (unfold tagged_name; rewrite Ho, Ht; reflexivity).
  assert (Hdf : deploy_fn c i = "manual-v1-release.pdf")
    by (unfold deploy_fn; rewrite Htn, Hb; reflexivity).
  assert (Hln : link_name c i = "manual-v1.pdf")
    by (unfold link_name; rewrite Hdf, Hb; reflexivity).
  assert (Hp : i_processed d = OsPath.join ldir ["manual-v1.tex"])
    by (unfold d, describe; simpl; by rewrite Htn).
  assert (Hd : i_deployed d = OsPath.join dpath ["manual-v1-release.pdf"])
    by (unfold d, describe; simpl; by rewrite Hdf).
  assert (Hl : i_link d = OsPath.join dpath ["manual-v1.pdf"])
    by (unfold d, describe; simpl; by rewrite Hln).
  assert (Hne : i_link d <> i_deployed d).
  { rewrite Hl, Hd, !join_single. intros Heq.
    apply join2_relative_inj in Heq; [discriminate | reflexivity | reflexivity]. }
  repeat split; try done.
  - rewrite Hp, join_single. by apply join2_endswith.
  - rewrite Hd, join_single. by apply join2_endswith.
  - rewrite Hl, join_single. by apply join2_endswith.
  - rewrite pdf_step_link by done. fold d.
    apply String.eqb_neq in Hne. rewrite Hne. unfold link_task. by rewrite Hdf.
Qed.

Lemma pdf_loop_render c ldir dpath fmt l : forall st,
  render_app (pdf_loop c ldir dpath fmt l st)
    = render_app st ++
      ((fun i => render_task fmt (describe ldir dpath c i))
         <$> List.filter (fun i => edition_check i c) l).
Proof.
  unfold PdfTasks.pdf_loop.
  induction l as [|i l IH]; intros st; simpl; [by rewrite app_nil_r|].
  rewrite IH. unfold PdfTasks.pdf_step.
  destruct (edition_check i c); simpl; [by rewrite <- app_assoc | done].
Qed.

End AssembleFacts.

Section OffsetFacts.

Import PdfTasks Transformation.

Variable edition_check : artifact -> conf -> bool.

Lemma pdf_loop_process c ldir dpath fmt l : forall st,
  process_app (PdfTasks.pdf_loop process_page edition_check c ldir dpath fmt l st)
    = process_app st ++
      ((fun i => let d := describe ldir dpath c i in
                 transform_unit (i_source d) (i_processed d) (ARules (tex_regexes c))
                                "tex-munge" "ifNeeded")
         <$> List.filter (fun i => edition_check i c) l).
Proof.
  unfold PdfTasks.pdf_loop.
  induction l as [|i l IH]; intros st; simpl; [by rewrite app_nil_r|].
  rewrite IH. unfold PdfTasks.pdf_step.
  destruct (edition_check i c); simpl; [|done].
  unfold process_page. by rewrite <- app_assoc.
Qed.

(** ** C9 *)

(** C9, as stated, fails: with the [offset] tag present but no [pdfs] in the
    configuration data, [pdf_tasks] returns before anything is added, so
    there is no transform group and no unit in it. *)
Lemma offset_without_pdfs_counterexample :
  let sc := {| builder := "latex"; tags := Some ["offset"] |} in
  let c := {| paths_projectroot := "/docs"; paths_branch_output := "build/release";
              paths_public_site_output := "build/public"; project_name := "manual";
              project_edition := None; project_url := "http://docs.example.org";
              project_tag := "manual"; git_branches_current := "release";
              pdfs := None |} in
  is_offset sc = true /\
  PdfTasks.pdf_tasks process_page (fun _ _ => true) sc c [] = [].
Proof. split; reflexivity. Qed.

(** C9, amended. When the configuration data has no [pdfs], [pdf_tasks]
    adds nothing.  When it has: with the [offset] tag the output format of
    every render task is ['dvi'] and the transform group starts with one
    unit that rewrites [sphinx.sty] of the tex directory onto itself with
    the [graphicx] rule, followed by the units of the accepted entries;
    without the tag the format is ['pdf'] and the transform group holds the
    units of the accepted entries only.  The style unit is none of those. *)
Theorem offset_transform_unit sc c app :
  let ldir := latex_dir (builder sc) c in
  let sty_file := OsPath.join ldir ["sphinx.sty"] in
  let sty_unit :=
    transform_unit sty_file sty_file (ARule sty_rule) "sphinx-latex" "ifNeeded" in
  match pdfs c with
  | None => PdfTasks.pdf_tasks process_page edition_check sc c app = app
  | Some l =>
      let kept :=
        describe ldir (deploy_path c) c <$> List.filter (fun i => edition_check i c) l in
      let units :=
        (fun d => transform_unit (i_source d) (i_processed d) (ARules (tex_regexes c))
                                 "tex-munge" "ifNeeded") <$> kept in
      ~ In sty_unit units /\
      exists st,
        PdfTasks.pdf_tasks process_page edition_check sc c app = app ++ stage_nodes st /\
        if is_offset sc
        then process_app st = sty_unit :: units /\
             render_app st = render_task "dvi" <$> kept
        else process_app st = units /\
             render_app st = render_task "pdf" <$> kept
  end.
Proof.
  intros ldir sty_file sty_unit. unfold PdfTasks.pdf_tasks.
  destruct (pdfs c) as [l|]; [|done].
  set (kept := describe ldir (deploy_path c) c <$> List.filter (fun i => edition_check i c) l).
  set (units := (fun d => transform_unit (i_source d) (i_processed d) (ARules (tex_regexes c))
                                         "tex-munge" "ifNeeded") <$> kept).
  split.
  - unfold units. rewrite <- list_elem_of_In, list_elem_of_fmap.
    intros (d & Heq & _). discriminate.
  - eexists. split; [reflexivity|].
    unfold PdfTasks.build_stages, offset_case. fold ldir.
    destruct (is_offset sc); rewrite pdf_loop_process, pdf_loop_render; simpl;
      unfold units, kept; rewrite <- !list_fmap_compose; done.
Qed.

End OffsetFacts.

(** C4 at the entry [manual.tex], accepted by the sample edition check. *)
Lemma link_unit_iff_paths_differ_witness :
  sample_edition_check manual_entry sample_conf = true /\
  link_app (PdfTasks.pdf_step Transformation.process_page sample_edition_check sample_conf
              "/docs/build/release/latex" "/docs/build/public" "pdf"
              PdfTasks.empty_stages manual_entry)
    = [ {| job := CreateLink;
           args := [AStr "manual-v1-release.pdf"; AStr "/docs/build/public/manual-v1.pdf"];
           dependency := Some "/docs/build/public/manual-v1-release.pdf";
           target := Some "/docs/build/public/manual-v1.pdf" |} ].
Proof.
  split; [reflexivity|].
  exact (proj1 (link_unit_iff_paths_differ Transformation.process_page sample_edition_check
                  sample_sconf sample_conf "/docs/build/release/latex" "/docs/build/public"
                  "pdf" PdfTasks.empty_stages [manual_entry; enterprise_entry] manual_entry
                  eq_refl)).
Defined.

(** C5 at the sample configuration. *)
Lemma manual_v1_release_paths_witness :
  let d := PdfTasks.describe "/docs/build/release/latex" "/docs/build/public"
             sample_conf manual_entry in
  output manual_entry = "manual.tex" /\ tag manual_entry = "v1" /\
  git_branches_current sample_conf = "release" /\
  sample_edition_check manual_entry sample_conf = true /\
  i_processed d = "/docs/build/release/latex/manual-v1.tex" /\
  i_deployed d = "/docs/build/public/manual-v1-release.pdf" /\
  i_link d = "/docs/build/public/manual-v1.pdf" /\
  i_link d <> i_deployed d.
Proof.
  intros d. do 4 (split; [reflexivity|]).
  destruct (manual_v1_release_paths Transformation.process_page sample_edition_check
              sample_conf "/docs/build/release/latex" "/docs/build/public" "pdf"
              PdfTasks.empty_stages manual_entry eq_refl eq_refl eq_refl eq_refl)
    as (Hp & _ & Hd & _ & Hl & _ & Hne & _).
  split; [exact Hp|]. split; [exact Hd|]. split; [exact Hl | exact Hne].
Defined.

(** C8 at the sample configuration, whose second entry names an edition the
    project is not built for. *)
Lemma rejected_artifact_adds_nothing_witness :
  sample_edition_check enterprise_entry sample_conf = false /\
  pdfs sample_conf = Some ([manual_entry] ++ enterprise_entry :: []) /\
  PdfTasks.pdf_tasks Transformation.process_page sample_edition_check sample_sconf sample_conf []
    = PdfTasks.stage_nodes
        (PdfTasks.build_stages Transformation.process_page sample_edition_check
           sample_sconf sample_conf [manual_entry]).
Proof.
  split; [reflexivity|]. split; [reflexivity|].
  destruct (rejected_artifact_adds_nothing Transformation.process_page sample_edition_check
              sample_sconf sample_conf [] [manual_entry] enterprise_entry [] eq_refl)
    as (_ & _ & Hgraph).
  exact (Hgraph eq_refl).
Defined.


(** * Further properties of the code *)

(** ** More on strings and paths *)

Section MoreStringFacts.

Lemma length_app_str (a b : string) :
  String.length (a +:+ b) = String.length a + String.length b.
Proof.
  induction a as [|x a IH]; [done|].
  change (String x a +:+ b) with (String x (a +:+ b)). simpl. by rewrite IH.
Qed.

Lemma prefix_app old post : String.prefix old (old +:+ post) = true.
Proof.
  induction old as [|x old IH].
  - by destruct post.
  - change (String x old +:+ post) with (String x (old +:+ post)).
    simpl. destruct (ascii_dec x x); [done | congruence].
Qed.

(** Deleting occurrences never lengthens a string. *)
Lemma replace_scan_length_le old s : forall k,
  String.length (PyStr.replace_scan old "" s k) <= String.length s.
Proof.
  induction s as [|c s IH]; intros k; cbn [PyStr.replace_scan String.length]; [done|].
  destruct k as [|k].
  - destruct (String.prefix old (String c s)).
    + change ("" +:+ ?x) with x. specialize (IH (String.length old - 1)). lia.
    + cbn [String.length]. specialize (IH 0). lia.
  - specialize (IH k). lia.
Qed.

(** Deleting a non-empty pattern from a string it occurs in shortens it. *)
Lemma replace_scan_length_lt old pre post :
  old <> "" ->
  String.length (PyStr.replace_scan old "" (pre +:+ old +:+ post) 0)
    < String.length (pre +:+ old +:+ post).
Proof.
  intros Hold.
  assert (Hhead : forall c s, String.prefix old (String c s) = true ->
            String.length (PyStr.replace_scan old "" (String c s) 0) < String.length (String c s)).
  { intros c s Hp. cbn [PyStr.replace_scan]. rewrite Hp. change ("" +:+ ?x) with x.
    pose proof (replace_scan_length_le old s (String.length old - 1)).
    cbn [String.length]. lia. }
  induction pre as [|a pre IH].
  - change ("" +:+ ?x) with x.
    destruct old as [|c old]; [done|].
    change (String c old +:+ post) with (String c (old +:+ post)).
    apply Hhead. change (String c (old +:+ post)) with (String c old +:+ post).
    apply prefix_app.
  - change (String a pre +:+ ?x) with (String a (pre +:+ x)).
    destruct (String.prefix old (String a (pre +:+ old +:+ post))) eqn:Hp.
    + by apply Hhead.
    + cbn [PyStr.replace_scan]. rewrite Hp. cbn [String.length]. lia.
Qed.

Lemma startswith_cons s : PyStr.startswith s "/" = true -> exists s', s = String "/" s'.
Proof.
  unfold PyStr.startswith. destruct s as [|c s]; cbn [String.prefix]; [discriminate|].
  destruct (ascii_dec "/" c) as [<-|]; [by exists s | discriminate].
Qed.

Lemma join2_absolute path b : PyStr.startswith b "/" = true -> OsPath.join2 path b = b.
Proof. intros H. unfold OsPath.join2. by rewrite H. Qed.

Lemma join2_length_ge path b : String.length b <= String.length (OsPath.join2 path b).
Proof.
  destruct (PyStr.startswith b "/") eqn:Hb.
  - by rewrite join2_absolute.
  - destruct (join2_relative path b Hb) as [-> | ->]; rewrite length_app_str; lia.
Qed.

End MoreStringFacts.

(** ** More on the task graph *)

Section StageFacts.

Import PdfTasks.

Variable process_page : string -> string -> pyarg -> list task -> string -> string -> list task.
Variable edition_check : artifact -> conf -> bool.

Lemma deploy_fn_shape c i :
  deploy_fn c i = tagged_name i +:+ ("-" +:+ git_branches_current c) +:+ ".pdf".
Proof. reflexivity. Qed.

(** The link name is strictly shorter than the deployed file name: the branch
    suffix occurs in the latter and is deleted. *)
Lemma link_name_shorter c i :
  String.length (link_name c i) < String.length (deploy_fn c i).
Proof.
  unfold link_name. rewrite deploy_fn_shape.
  change ("-" +:+ git_branches_current c) with (String "-" (git_branches_current c)).
  unfold PyStr.replace. by apply replace_scan_length_lt.
Qed.

(** Deleting the branch suffix keeps a leading separator. *)
Lemma link_name_absolute c i :
  PyStr.startswith (deploy_fn c i) "/" = true -> PyStr.startswith (link_name c i) "/" = true.
Proof.
  intros H. apply startswith_cons in H as [s Hs].
  unfold link_name. rewrite Hs.
  change ("-" +:+ git_branches_current c) with (String "-" (git_branches_current c)).
  unfold PyStr.replace. cbn [PyStr.replace_scan String.prefix].
  destruct (ascii_dec "-" "/") as [E|_]; [discriminate E|].
  unfold PyStr.startswith. cbn [String.prefix].
  destruct (ascii_dec "/" "/"); [by destruct (PyStr.replace_scan _ _ _ _) | done].
Qed.

Lemma link_path_differs c ldir dpath i :
  i_link (describe ldir dpath c i) <> i_deployed (describe ldir dpath c i).
Proof.
  unfold describe. cbn [i_link i_deployed]. rewrite !join_single.
  pose proof (link_name_shorter c i) as Hlt.
  destruct (PyStr.startswith (deploy_fn c i) "/") eqn:Hd.
  - rewrite (join2_absolute _ _ Hd), (join2_absolute _ _ (link_name_absolute _ _ Hd)).
    intros Heq. rewrite Heq in Hlt. lia.
  - destruct (PyStr.startswith (link_name c i) "/") eqn:Hl.
    + rewrite (join2_absolute _ _ Hl). intros Heq.
      pose proof (join2_length_ge dpath (deploy_fn c i)) as Hge.
      rewrite <- Heq in Hge. lia.
    + intros Heq. apply join2_relative_inj in Heq; [|done|done].
      rewrite Heq in Hlt. lia.
Qed.

Lemma pdf_loop_link_all c ldir dpath fmt l : forall st,
  link_app (PdfTasks.pdf_loop process_page edition_check c ldir dpath fmt l st)
    = link_app st ++
      ((fun i => link_task (deploy_fn c i) (describe ldir dpath c i))
         <$> List.filter (fun i => edition_check i c) l).
Proof.
  intros st. rewrite pdf_loop_link. f_equal.
  induction (List.filter (fun i => edition_check i c) l) as [|i k IH]; [done|].
  match goal with
  | |- flat_map ?f (i :: k) = _ => change (flat_map f (i :: k)) with (f i ++ flat_map f k)
  end.
  rewrite IH. cbn beta zeta.
  pose proof (link_path_differs c ldir dpath i) as Hne.
  apply String.eqb_neq in Hne. by rewrite Hne.
Qed.

Lemma offset_case_render sc ldir st :
  render_app (snd (offset_case process_page sc ldir st)) = render_app st.
Proof. unfold offset_case. by destruct (is_offset sc). Qed.

Lemma offset_case_format sc ldir st :
  fst (offset_case process_page sc ldir st) = if is_offset sc then "dvi" else "pdf".
Proof. unfold offset_case. by destruct (is_offset sc). Qed.

(** X1. The link path derived for an entry is never the deployed path, so
    the test before the link task never skips it: the link group holds one
    link task for every accepted entry, in order, and is as long as the
    render group. *)
Theorem every_accepted_entry_linked sc c l :
  let ldir := latex_dir (builder sc) c in
  let st := PdfTasks.build_stages process_page edition_check sc c l in
  (forall dir dpath i, i_link (describe dir dpath c i) <> i_deployed (describe dir dpath c i)) /\
  link_app st
    = ((fun i => link_task (deploy_fn c i) (describe ldir (deploy_path c) c i))
         <$> List.filter (fun i => edition_check i c) l) /\
  length (link_app st) = length (render_app st).
Proof.
  intros ldir st. split; [intros; apply link_path_differs|].
  unfold st, PdfTasks.build_stages. fold ldir.
  pose proof (offset_case_link process_page sc ldir empty_stages) as Hl.
  pose proof (offset_case_render sc ldir empty_stages) as Hr.
  destruct (offset_case _ _ _ _) as [fmt st0]. cbn [snd] in Hl, Hr.
  rewrite pdf_loop_link_all, pdf_loop_render, Hl, Hr. cbn [link_app render_app empty_stages app].
  split; [done|]. by rewrite !length_fmap.
Qed.

(** X2. The render group holds one render task for every accepted entry, in
    order; its format is ['dvi'] with the [offset] tag and ['pdf'] without,
    it has no dependency, and its target is the pdf path of the entry. *)
Theorem render_group_shape sc c l :
  let ldir := latex_dir (builder sc) c in
  let fmt := if is_offset sc then "dvi" else "pdf" in
  let st := PdfTasks.build_stages process_page edition_check sc c l in
  render_app st
    = ((fun i => let d := describe ldir (deploy_path c) c i in
                 {| job := RenderTexIntoPdf;
                    args := [AStr (i_processed d); AStr (i_deployed d); AStr ldir; AStr fmt];
                    dependency := None;
                    target := Some (i_pdf d) |})
         <$> List.filter (fun i => edition_check i c) l) /\
  length (render_app st) = length (List.filter (fun i => edition_check i c) l).
Proof.
  intros ldir fmt st. unfold st, PdfTasks.build_stages. fold ldir.
  pose proof (offset_case_render sc ldir empty_stages) as Hr.
  pose proof (offset_case_format sc ldir empty_stages) as Hf.
  destruct (offset_case _ _ _ _) as [fmt0 st0]. cbn [fst snd] in Hr, Hf. subst fmt0.
  rewrite pdf_loop_render, Hr. cbn [render_app empty_stages app].
  split; [done|]. by rewrite length_fmap.
Qed.

End StageFacts.

(** ** More on the render job *)

Section RenderOutcome.

Import Latex.

Variable exit_status : nat -> Z.

(** Every started step logs one record, and the fatal exit one more. *)
Lemma run_cmds_counts total base rest : forall idx w b w',
  run_cmds exit_status total base idx rest w = (b, w') ->
  length (log w') + length (calls w)
    = length (log w) + length (calls w') + (if b then 0 else 1).
Proof.
  induction rest as [|cmd rest IH]; intros idx w b w' H; cbn [run_cmds] in H.
  - inversion H; subst. lia.
  - destruct (exit_status idx =? 0)%Z; [|destruct (idx <=? 1)%nat].
    + apply IH in H. cbn [logger subprocess_call log calls] in H.
      rewrite !length_app in H. cbn [length] in H. lia.
    + apply IH in H. cbn [logger subprocess_call log calls] in H.
      rewrite !length_app in H. cbn [length] in H. lia.
    + inversion H; subst. cbn [logger subprocess_call log calls].
      rewrite !length_app. cbn [length]. lia.
Qed.

(** A run that completes logs no error. *)
Lemma run_cmds_no_error total base rest : forall idx w w',
  run_cmds exit_status total base idx rest w = (true, w') ->
  exists ls, log w' = log w ++ ls /\ Forall (fun r => fst r <> Error) ls.
Proof.
  induction rest as [|cmd rest IH]; intros idx w w' H; cbn [run_cmds] in H.
  - inversion H; subst. exists []. by rewrite app_nil_r.
  - destruct (exit_status idx =? 0)%Z; [|destruct (idx <=? 1)%nat]; [| |done].
    + apply IH in H as (ls & Hls & Hall). cbn [logger subprocess_call log] in Hls.
      eexists (_ :: ls). rewrite Hls, <- app_assoc. split; [done|].
      constructor; [done | done].
    + apply IH in H as (ls & Hls & Hall). cbn [logger subprocess_call log] in Hls.
      eexists (_ :: ls). rewrite Hls, <- app_assoc. split; [done|].
      constructor; [done | done].
Qed.

(** A run that stops ends its log with the two error records of the failing
    command, which is the last one started. *)
Lemma run_cmds_fail_tail total base rest : forall idx w w',
  run_cmds exit_status total base idx rest w = (false, w') ->
  exists ls cmd,
    log w' = log w ++ ls ++ [(Error, msg_fatal base); (Error, cmd)] /\
    rest !! length ls = Some cmd /\
    length (calls w') = length (calls w) + S (length ls).
Proof.
  induction rest as [|cmd rest IH]; intros idx w w' H; cbn [run_cmds] in H; [done|].
  destruct (exit_status idx =? 0)%Z; [|destruct (idx <=? 1)%nat].
  - apply IH in H as (ls & c & Hls & Hc & Hn).
    cbn [logger subprocess_call log calls] in Hls, Hn.
    eexists (_ :: ls), c. rewrite Hls, <- app_assoc. split; [done|]. split; [done|].
    rewrite Hn, length_app. cbn [length]. lia.
  - apply IH in H as (ls & c & Hls & Hc & Hn).
    cbn [logger subprocess_call log calls] in Hls, Hn.
    eexists (_ :: ls), c. rewrite Hls, <- app_assoc. split; [done|]. split; [done|].
    rewrite Hn, length_app. cbn [length]. lia.
  - inversion H; subst. exists [], cmd. cbn [logger subprocess_call log calls].
    rewrite <- app_assoc. split; [done|]. split; [done|].
    rewrite length_app. cbn [length]. lia.
Qed.

(** The environment and the calls of any call of the job. *)
Lemma render_env_calls fn deployed_path path output_format w :
  let w' := snd (_render_tex_into_pdf exit_status fn deployed_path path output_format w) in
  environ w' = <["TEXINPUTS" := ".:" +:+ path +:+ ":"]> (environ w) /\
  exists started, calls w' = calls w ++ started /\
    Forall (fun i => inv_environ i = environ w') started.
Proof.
  unfold _render_tex_into_pdf.
  destruct (build_cmds fn path output_format) as [cmds|]; simpl.
  - destruct (run_cmds _ _ _ _ _ _) as [b w1] eqn:Hloop.
    apply run_cmds_spec in Hloop as (Henv & _ & n & _ & Hcalls & _).
    simpl in Henv, Hcalls.
    destruct b; simpl in *; (split; [done|]); eexists; (split; [exact Hcalls|]);
      rewrite Henv; apply Forall_fmap, Forall_forall; done.
  - split; [done|]. exists []. by rewrite app_nil_r.
Qed.

(** X3. For a supported format the job returns [None] exactly when every
    process from index 2 on exits with status 0, whatever the first two do;
    it has then started every command, logged one record per command, none of
    them an error, and requested the one copy of the rendered file to the
    deployed path. *)
Theorem render_succeeds_iff fn deployed_path path output_format cmds w r w' :
  build_cmds fn path output_format = Some cmds ->
  _render_tex_into_pdf exit_status fn deployed_path path output_format w = (r, w') ->
  (r = RNone <-> forall k, 2 <= k < length cmds -> exit_status k = 0%Z) /\
  (r = RNone ->
   calls w' = calls w ++ (invoke (environ w') <$> cmds) /\
   copies w' = copies w ++ [{| copy_source := fst (OsPath.splitext fn) +:+ ".pdf";
                               copy_target := deployed_path;
                               copy_name := "pdf" |}] /\
   exists ls, log w' = log w ++ ls /\ length ls = length cmds /\
              Forall (fun rec => fst rec <> Error) ls).
Proof.
  intros Hcmds Hrun. unfold _render_tex_into_pdf in Hrun. rewrite Hcmds in Hrun.
  destruct (run_cmds _ _ _ _ _ _) as [b w1] eqn:Hloop.
  pose proof (run_cmds_counts _ _ _ _ _ _ _ Hloop) as Hcount.
  pose proof (run_cmds_spec _ _ _ _ _ _ _ _ Hloop)
    as (Henv & Hcp & n & Hn & Hcalls & Hb & Hmin & Hfatal & Hwarn & Hfail).
  cbn [setenv environ calls copies log] in Henv, Hcp, Hcalls, Hcount.
  destruct b; inversion Hrun; subst; clear Hrun.
  - specialize (Hb eq_refl). subst n. rewrite firstn_all in Hcalls.
    split.
    + split; [|done]. intros _ k [Hk2 Hklen].
      destruct (Z.eq_dec (exit_status k) 0%Z) as [|Hne]; [done|].
      destruct (Hfatal k) as [_ ?]; [done | lia | done | done].
    + intros _. cbn [copy_if_needed environ calls copies log].
      rewrite Henv. split; [done|]. split; [by rewrite Hcp|].
      destruct (run_cmds_no_error _ _ _ _ _ _ Hloop) as (ls & Hls & Hall).
      cbn [setenv log] in Hls. exists ls. split; [done|]. split; [|done].
      rewrite Hls, Hcalls, !length_app, length_fmap in Hcount. lia.
  - split; [|done]. split; [done|]. intros Hall.
    destruct (Hfail eq_refl) as (j & Hj & Hj2 & Hne). destruct Hne.
    apply Hall. cbn [Nat.add] in *. lia.
Qed.

(** X4. For a supported format, when index [k >= 2] is the first from 2 on
    whose process fails, the job returns [False], has started the commands up
    to index [k] and no other, ends its log with the two error records of
    that command after one record for each earlier step, and requests no
    copy. *)
Theorem render_stops_at_first_fatal fn deployed_path path output_format cmds w r w' k cmd :
  build_cmds fn path output_format = Some cmds ->
  _render_tex_into_pdf exit_status fn deployed_path path output_format w = (r, w') ->
  2 <= k -> cmds !! k = Some cmd -> exit_status k <> 0%Z ->
  (forall j, 2 <= j < k -> exit_status j = 0%Z) ->
  r = RFalse /\
  calls w' = calls w ++ (invoke (environ w') <$> take (S k) cmds) /\
  (exists ls, log w' = log w ++ ls ++ [(Error, msg_fatal (OsPath.basename fn)); (Error, cmd)] /\
              length ls = k) /\
  copies w' = copies w.
Proof.
  intros Hcmds Hrun Hk2 Hcmd Hne Hfirst.
  apply lookup_lt_Some in Hcmd as Hklen.
  unfold _render_tex_into_pdf in Hrun. rewrite Hcmds in Hrun.
  destruct (run_cmds _ _ _ _ _ _) as [b w1] eqn:Hloop.
  pose proof (run_cmds_spec _ _ _ _ _ _ _ _ Hloop)
    as (Henv & Hcp & n & Hn & Hcalls & Hb & Hmin & Hfatal & Hwarn & Hfail).
  cbn [setenv environ calls copies log] in Henv, Hcp, Hcalls.
  assert (Hkn : k < n).
  { destruct b.
    - rewrite (Hb eq_refl). done.
    - destruct (Hfail eq_refl) as (j & Hj & Hj2 & Hjne). cbn [Nat.add] in *.
      destruct (decide (k < n)) as [|Hge]; [done|].
      destruct Hjne. apply Hfirst. lia. }
  destruct (Hfatal k Hkn) as [Hlast ->]; [lia | done |].
  inversion Hrun; subst r w'; clear Hrun.
  destruct (run_cmds_fail_tail _ _ _ _ _ _ Hloop) as (ls & c & Hls & Hc & Hlen).
  cbn [setenv log calls] in Hls, Hlen.
  assert (Hlsk : length ls = k).
  { rewrite Hcalls, length_app, length_fmap, length_take_le in Hlen by done. lia. }
  rewrite Hlsk in Hc. assert (c = cmd) as -> by congruence.
  split; [done|]. rewrite Henv. split; [by rewrite Hcalls, <- Hlast|].
  split; [by exists ls | done].
Qed.

(** X5. Two calls in a row: the processes of each call inherit the search
    path of that call, and after the second call the environment is the one
    before the first call with the search path of the second. *)
Theorem texinputs_last_call_wins fn1 dp1 path1 fmt1 fn2 dp2 path2 fmt2 w :
  let w1 := snd (_render_tex_into_pdf exit_status fn1 dp1 path1 fmt1 w) in
  let w2 := snd (_render_tex_into_pdf exit_status fn2 dp2 path2 fmt2 w1) in
  environ w2 = <["TEXINPUTS" := ".:" +:+ path2 +:+ ":"]> (environ w) /\
  exists first second,
    calls w2 = calls w ++ first ++ second /\
    Forall (fun i => inv_environ i !! "TEXINPUTS" = Some (".:" +:+ path1 +:+ ":")) first /\
    Forall (fun i => inv_environ i !! "TEXINPUTS" = Some (".:" +:+ path2 +:+ ":")) second.
Proof.
  intros w1 w2.
  destruct (render_env_calls fn1 dp1 path1 fmt1 w) as (He1 & s1 & Hc1 & Hall1).
  destruct (render_env_calls fn2 dp2 path2 fmt2 w1) as (He2 & s2 & Hc2 & Hall2).
  fold w1 in He1, Hc1, Hall1. fold w2 in He2, Hc2, Hall2.
  split.
  - rewrite He2, He1. apply insert_insert_eq.
  - exists s1, s2. split; [by rewrite Hc2, Hc1, <- app_assoc|]. split.
    + eapply Forall_impl; [exact Hall1|]. intros i ->. rewrite He1. apply lookup_insert_eq.
    + eapply Forall_impl; [exact Hall2|]. intros i ->. rewrite He2. apply lookup_insert_eq.
Qed.

End RenderOutcome.

(** ** Paths handed from the task graph to the render job *)

Section PathFacts.

Lemma rfind_app_none c s t :
  OsPath.rfind c t = None -> OsPath.rfind c (s +:+ t) = OsPath.rfind c s.
Proof.
  intros Ht. induction s as [|x s IH].
  - by change ("" +:+ t) with t.
  - change (String x s +:+ t) with (String x (s +:+ t)).
    cbn [OsPath.rfind]. by rewrite IH.
Qed.

Lemma rfind_app_some c s t k :
  OsPath.rfind c t = Some k -> OsPath.rfind c (s +:+ t) = Some (String.length s + k).
Proof.
  intros Ht. induction s as [|x s IH].
  - by change ("" +:+ t) with t.
  - change (String x s +:+ t) with (String x (s +:+ t)).
    cbn [OsPath.rfind]. by rewrite IH.
Qed.

Lemma rfind_lt c s : forall k, OsPath.rfind c s = Some k -> k < String.length s.
Proof.
  induction s as [|x s IH]; intros k; cbn [OsPath.rfind String.length]; [done|].
  destruct (OsPath.rfind c s) as [j|].
  - intros [= <-]. specialize (IH j eq_refl). lia.
  - destruct (Ascii.eqb x c); [intros [= <-]; lia | done].
Qed.

Lemma after_last_sep_le s : OsPath.after_last_sep s <= String.length s.
Proof.
  unfold OsPath.after_last_sep. destruct (OsPath.rfind "/" s) as [k|] eqn:E; [|lia].
  apply rfind_lt in E. lia.
Qed.

Lemma substring_app_prefix s t : String.substring 0 (String.length s) (s +:+ t) = s.
Proof.
  induction s as [|x s IH].
  - change ("" +:+ t) with t. by destruct t.
  - change (String x s +:+ t) with (String x (s +:+ t)).
    cbn [String.length String.substring]. by rewrite IH.
Qed.

Lemma drop_app s t : PyStr.drop (String.length s) (s +:+ t) = t.
Proof.
  induction s as [|x s IH]; [done|].
  change (String x s +:+ t) with (String x (s +:+ t)). by cbn [String.length PyStr.drop].
Qed.

Lemma drop_last_app s e : PyStr.drop_last (String.length e) (s +:+ e) = s.
Proof.
  unfold PyStr.drop_last. rewrite length_app_str.
  replace (String.length s + String.length e - String.length e) with (String.length s) by lia.
  apply substring_app_prefix.
Qed.

Lemma all_dots_get s : OsPath.all_dots s = true ->
  forall n c, String.get n s = Some c -> c = "."%char.
Proof.
  induction s as [|x s IH]; cbn [OsPath.all_dots]; intros H n c; [by destruct n|].
  apply andb_true_iff in H as [Hx Hs]. apply Ascii.eqb_eq in Hx as ->.
  destruct n as [|n]; cbn [String.get]; [by intros [= <-] | by apply IH].
Qed.

(** [os.path.splitext] cuts at the last dot when the extension has neither a
    dot nor a separator and the name before it, free of separators, starts
    with a dash. *)
Lemma splitext_dashed q name ext :
  OsPath.rfind "/" name = None -> OsPath.rfind "/" ext = None -> OsPath.rfind "." ext = None ->
  OsPath.splitext (q +:+ String "-" name +:+ String "." ext)
    = (q +:+ String "-" name, String "." ext).
Proof.
  intros Hname Hext Hdot.
  set (stem := q +:+ String "-" name).
  assert (Hp : q +:+ String "-" name +:+ String "." ext = stem +:+ String "." ext).
  { unfold stem. by rewrite app_assoc_str. }
  rewrite Hp. unfold OsPath.splitext.
  assert (Hd : OsPath.rfind "." (stem +:+ String "." ext) = Some (String.length stem)).
  { rewrite (rfind_app_some _ _ _ 0); [f_equal; lia|].
    cbn [OsPath.rfind]. by rewrite Hdot. }
  rewrite Hd.
  assert (Hf : OsPath.after_last_sep (stem +:+ String "." ext) = OsPath.after_last_sep q).
  { unfold OsPath.after_last_sep, stem. rewrite app_assoc_str.
    rewrite rfind_app_none; [done|].
    change (String "-" name +:+ String "." ext) with (String "-" (name +:+ String "." ext)).
    cbn [OsPath.rfind]. rewrite rfind_app_none; [by rewrite Hname|].
    cbn [OsPath.rfind]. by rewrite Hext. }
  rewrite Hf. pose proof (after_last_sep_le q) as Hle.
  assert (Hlen : String.length stem = String.length q + S (String.length name)).
  { unfold stem. by rewrite length_app_str. }
  assert (Hle' : (OsPath.after_last_sep q <=? String.length stem)%nat = true)
    by (apply Nat.leb_le; lia).
  rewrite Hle'.
  assert (Hnd : OsPath.all_dots
                  (String.substring (OsPath.after_last_sep q)
                     (String.length stem - OsPath.after_last_sep q)
                     (stem +:+ String "." ext)) = false).
  { destruct (OsPath.all_dots _) eqn:Hall; [|done].
    pose proof (all_dots_get _ Hall (String.length q - OsPath.after_last_sep q) "-"%char) as Hc.
    rewrite substring_correct1 in Hc by lia.
    replace (String.length q - OsPath.after_last_sep q + OsPath.after_last_sep q)
      with (0 + String.length q) in Hc by lia.
    unfold stem in Hc. rewrite app_assoc_str in Hc.
    rewrite <- append_correct2 in Hc. discriminate (Hc eq_refl). }
  rewrite Hnd. cbn [andb negb]. by rewrite substring_app_prefix, drop_app.
Qed.

(** Two file names that share everything up to a dash are joined to a
    directory in the same way. *)
Lemma join2_dashed dir a r1 r2 :
  exists q, OsPath.join2 dir (a +:+ String "-" r1) = q +:+ String "-" r1 /\
            OsPath.join2 dir (a +:+ String "-" r2) = q +:+ String "-" r2.
Proof.
  unfold OsPath.join2, PyStr.startswith.
  destruct a as [|x a].
  - change ("" +:+ ?s) with s. cbn [String.prefix].
    destruct (ascii_dec "/" "-") as [E|_]; [discriminate E|].
    destruct (_ || _).
    + by exists dir.
    + exists (dir +:+ "/"). by rewrite !app_assoc_str.
  - change (String x a +:+ ?s) with (String x (a +:+ s)). cbn [String.prefix].
    destruct (ascii_dec "/" x) as [_|_].
    + assert (Hnil : forall s, String.prefix "" s = true) by (by intros []).
      rewrite !Hnil. by exists (String x a).
    + destruct (_ || _).
      * exists (dir +:+ String x a). by rewrite !app_assoc_str.
      * exists (dir +:+ "/" +:+ String x a). by rewrite !app_assoc_str.
Qed.

End PathFacts.

Section HandoverFacts.

Import PdfTasks Latex.

Lemma tagged_tex_shape i ext :
  tagged_name i +:+ ext
    = PyStr.drop_last 4 (output i) +:+ String "-" (tag i +:+ ext).
Proof.
  unfold tagged_name. rewrite app_assoc_str.
  change ("-" +:+ tag i) with (String "-" (tag i)). done.
Qed.

(** X6. When the tag of an entry has no separator, the file that the render
    job copies after a successful run of the render task of that entry (the
    processed path with its extension replaced by [.pdf]) is the target of
    that task, and it is copied to the deployed path of the entry. *)
Theorem render_copy_source_is_target c ldir dpath i fmt w :
  OsPath.rfind "/" (tag i) = None ->
  fmt = "pdf" \/ fmt = "dvi" ->
  let d := describe ldir dpath c i in
  fst (OsPath.splitext (i_processed d)) +:+ ".pdf" = i_pdf d /\
  target (render_task fmt d) = Some (i_pdf d) /\
  copies (snd (_render_tex_into_pdf all_succeed (i_processed d) (i_deployed d) (i_path d) fmt w))
    = copies w ++ [{| copy_source := i_pdf d; copy_target := i_deployed d; copy_name := "pdf" |}].
Proof.
  intros Htag Hfmt d.
  assert (Hsrc : fst (OsPath.splitext (i_processed d)) +:+ ".pdf" = i_pdf d).
  { unfold d, describe. cbn [i_processed i_pdf]. rewrite !join_single, !tagged_tex_shape.
    destruct (join2_dashed ldir (PyStr.drop_last 4 (output i)) (tag i +:+ ".tex")
                (tag i +:+ ".pdf")) as (q & -> & ->).
    assert (Hq : forall e, q +:+ String "-" (tag i +:+ e) = q +:+ String "-" (tag i) +:+ e).
    { intros e. change (String "-" (tag i +:+ e)) with (String "-" (tag i) +:+ e).
      done. }
    rewrite (Hq ".tex"). change ".tex" with (String "." "tex").
    rewrite splitext_dashed by done. cbn [fst].
    rewrite (Hq ".pdf"). by rewrite app_assoc_str. }
  split; [done|]. split; [done|].
  assert (Hcmds : exists cmds, build_cmds (i_processed d) (i_path d) fmt = Some cmds).
  { destruct Hfmt as [-> | ->]; eexists; reflexivity. }
  destruct Hcmds as [cmds Hcmds].
  destruct (render_all_succeed (i_processed d) (i_deployed d) (i_path d) fmt cmds w Hcmds)
    as (w' & -> & _ & Hcp).
  cbn [snd]. by rewrite Hcp, Hsrc.
Qed.

(** The tag of an entry may hold a separator; the file copied is then not
    the target of the render task. *)
Example render_copy_source_with_separator :
  let i := {| output := "manual.tex"; tag := "v1/"; others := [] |} in
  let d := describe "/docs/build/release/latex" "/docs/build/public" sample_conf i in
  i_pdf d = "/docs/build/release/latex/manual-v1/.pdf" /\
  fst (OsPath.splitext (i_processed d)) +:+ ".pdf"
    = "/docs/build/release/latex/manual-v1/.tex.pdf".
Proof. split; reflexivity. Qed.

Lemma rfind_none_relative b : OsPath.rfind "/" b = None -> PyStr.startswith b "/" = false.
Proof.
  unfold PyStr.startswith. destruct b as [|x b]; [done|].
  cbn [OsPath.rfind String.prefix].
  destruct (OsPath.rfind "/" b); [done|].
  destruct (ascii_dec "/" x) as [<-|]; [|done]. done.
Qed.

(** The last component of a directory joined with a name free of separators
    is that name. *)
Lemma basename_join2 dir b :
  OsPath.rfind "/" b = None -> OsPath.basename (OsPath.join2 dir b) = b.
Proof.
  intros Hb. unfold OsPath.join2. rewrite (rfind_none_relative _ Hb).
  unfold OsPath.basename, OsPath.after_last_sep.
  destruct (String.eqb_spec dir "") as [-> | Hne]; cbn [orb].
  - change ("" +:+ b) with b. by rewrite Hb.
  - destruct (PyStr.endswith dir "/") eqn:He.
    + apply endswith_spec in He as [p ->].
      rewrite rfind_app_none by done.
      rewrite (rfind_app_some _ _ _ 0) by done.
      replace (S (String.length p + 0)) with (String.length (p +:+ "/"))
        by (rewrite length_app_str; simpl; lia).
      apply drop_app.
    + rewrite <- app_assoc_str. rewrite rfind_app_none by done.
      rewrite (rfind_app_some _ _ _ 0) by done.
      replace (S (String.length dir + 0)) with (String.length (dir +:+ "/"))
        by (rewrite length_app_str; simpl; lia).
      apply drop_app.
Qed.

(** What the render job starts for the index and for the conversion: the
    words of the command line, the first of which is the program. *)
Lemma split_makeindex rest :
  PyStr.split ("makeindex -s " +:+ rest) = "makeindex" :: "-s" :: PyStr.split rest.
Proof. reflexivity. Qed.

Lemma split_cd rest : PyStr.split ("cd " +:+ rest) = "cd" :: PyStr.split rest.
Proof. reflexivity. Qed.

(** X7. When neither the output name without its last four characters nor
    the tag of an entry has a separator, the render job of that entry sees
    the base name [<tagged name>.tex].  In a ['dvi'] run in which every
    process succeeds, the second process started is [makeindex] with the
    arguments [-s] and the words of
    [<tex directory>/python.ist <tex directory>/<tagged name>.idx], and the
    fifth process started is the program [cd], whose arguments are the words
    of [<tex directory>; dvipdf <tagged name>.dvi]: the command line is cut at
    white space and started as it is, so [dvipdf] is an argument of [cd]. *)
Theorem render_commands_use_tagged_name c ldir dpath i w :
  OsPath.rfind "/" (PyStr.drop_last 4 (output i)) = None ->
  OsPath.rfind "/" (tag i) = None ->
  let d := describe ldir dpath c i in
  let w' := snd (_render_tex_into_pdf all_succeed (i_processed d) (i_deployed d)
                   (i_path d) "dvi" w) in
  let env := <["TEXINPUTS" := ".:" +:+ ldir +:+ ":"]> (environ w) in
  OsPath.basename (i_processed d) = tagged_name i +:+ ".tex" /\
  calls w' !! (length (calls w) + 1)
    = Some {| inv_args :=
                "makeindex" :: "-s" ::
                  PyStr.split (ldir +:+ "/python.ist " +:+ ldir +:+ "/" +:+ tagged_name i
                                 +:+ ".idx ");
              inv_environ := env |} /\
  calls w' !! (length (calls w) + 4)
    = Some {| inv_args :=
                "cd" :: PyStr.split (ldir +:+ "; dvipdf " +:+ tagged_name i +:+ ".dvi");
              inv_environ := env |}.
Proof.
  intros Hout Htag d w' env.
  assert (Hfree : OsPath.rfind "/" (tagged_name i +:+ ".tex") = None).
  { rewrite tagged_tex_shape. rewrite rfind_app_none; [done|].
    cbn [OsPath.rfind]. rewrite rfind_app_none; [by rewrite Htag | done]. }
  assert (Hbase : OsPath.basename (i_processed d) = tagged_name i +:+ ".tex").
  { unfold d, describe. cbn [i_processed]. rewrite join_single. by apply basename_join2. }
  assert (Hstem : PyStr.drop_last 4 (OsPath.basename (i_processed d)) = tagged_name i).
  { rewrite Hbase. apply (drop_last_app (tagged_name i) ".tex"). }
  split; [done|].
  destruct (render_all_succeed (i_processed d) (i_deployed d) (i_path d) "dvi" _ w eq_refl)
    as (w1 & Hrun & Hcalls & _).
  unfold w'. rewrite Hrun. cbn [snd]. rewrite Hcalls.
  split.
  - rewrite lookup_app_r by lia.
    replace (length (calls w) + 1 - length (calls w)) with 1 by lia.
    cbn [app fmap list_fmap lookup list_lookup]. unfold invoke, makeindex_cmd.
    rewrite Hstem, split_makeindex. reflexivity.
  - rewrite lookup_app_r by lia.
    replace (length (calls w) + 4 - length (calls w)) with 4 by lia.
    cbn [app fmap list_fmap lookup list_lookup]. unfold invoke, dvipdf_cmd.
    rewrite Hstem, split_cd. reflexivity.
Qed.

End HandoverFacts.

(** ** More on asset synchronisation *)

Section AssetTaskFacts.

Import Assets AssetTasks.

Lemma fold_add_setup root l : forall st,
  tasks (fold_left (add_setup root) l st)
    = tasks st ++
      ((fun a => {| a_job := AssetsSetup;
                    a_args := Kwargs {[ "path" := OsPath.join root [asset_path a];
                                        "branch" := asset_branch a;
                                        "repo" := asset_repository a ]} |}) <$> l).
Proof.
  induction l as [|a l IH]; intros st; cbn [fold_left fmap list_fmap].
  - by rewrite app_nil_r.
  - rewrite IH. cbn [add_setup tasks]. by rewrite <- app_assoc.
Qed.

Lemma fold_add_clean root l : forall st,
  tasks (fold_left (add_clean root) l st)
    = tasks st ++
      ((fun a => {| a_job := RmRf;
                    a_args := Positional [OsPath.join root [asset_path a]] |}) <$> l).
Proof.
  induction l as [|a l IH]; intros st; cbn [fold_left fmap list_fmap].
  - by rewrite app_nil_r.
  - rewrite IH. cbn [add_clean tasks]. by rewrite <- app_assoc.
Qed.

(** X8. Starting from the same app, [assets_clean] adds as many tasks as
    [assets_tasks], and they act, in the same order, on the same paths: each
    asset path joined to the project root.  With no assets configured neither
    adds anything. *)
Theorem assets_clean_mirrors_setup c st :
  let added_setup := drop (length (tasks st)) (tasks (assets_tasks c st)) in
  let added_clean := drop (length (tasks st)) (tasks (assets_clean c st)) in
  let paths := match assets c with
               | Some l => (fun a => Some (OsPath.join (projectroot c) [asset_path a])) <$> l
               | None => []
               end in
  task_path <$> added_setup = paths /\
  task_path <$> added_clean = paths /\
  Forall (fun t => a_job t = AssetsSetup) added_setup /\
  Forall (fun t => a_job t = RmRf) added_clean.
Proof.
  unfold assets_tasks, assets_clean. destruct (assets c) as [l|]; cbn zeta.
  - rewrite fold_add_setup, fold_add_clean, !drop_app_length.
    rewrite <- !list_fmap_compose. repeat split.
    + apply Forall_fmap, Forall_forall. done.
    + apply Forall_fmap, Forall_forall. done.
  - rewrite drop_all. repeat split; constructor.
Qed.

End AssetTaskFacts.

Section AssetEdgeFacts.

Import Assets AssetTasks.

(** X9. An asset whose path is absolute is not placed under the project
    root: the setup task and the cleanup task ([rm_rf]) added for it act on
    the asset path itself. *)
Theorem absolute_asset_path_ignores_root c st l a :
  assets c = Some l -> In a l ->
  PyStr.startswith (asset_path a) "/" = true ->
  In {| a_job := RmRf; a_args := Positional [asset_path a] |} (tasks (assets_clean c st)) /\
  In {| a_job := AssetsSetup;
        a_args := Kwargs {[ "path" := asset_path a;
                            "branch" := asset_branch a;
                            "repo" := asset_repository a ]} |}
     (tasks (assets_tasks c st)).
Proof.
  intros Hl Ha Habs. unfold assets_tasks, assets_clean. rewrite Hl.
  rewrite fold_add_setup, fold_add_clean.
  assert (Hj : OsPath.join (projectroot c) [asset_path a] = asset_path a)
    by (rewrite join_single; by apply join2_absolute).
  split; apply in_or_app; right; apply list_elem_of_In, list_elem_of_fmap;
    exists a; rewrite Hj; (split; [done | by apply list_elem_of_In]).
Qed.

Variable git_ok : git_op -> bool.

(** Stripping the separators from the end of a directory followed by one
    gives the directory back, when it is not empty and does not end with a
    separator itself. *)
Lemma rstrip_sep_app dir :
  dir <> "" -> PyStr.endswith dir "/" = false ->
  OsPath.rstrip_sep (dir +:+ "/") = dir /\ OsPath.all_sep (dir +:+ "/") = false.
Proof.
  induction dir as [|x dir IH]; [done|]. intros _ He.
  change (String x dir +:+ "/") with (String x (dir +:+ "/")).
  cbn [PyStr.endswith] in He.
  destruct (String.eqb (String x dir) "/") eqn:E; [done|].
  destruct dir as [|y dir].
  - change ("" +:+ "/") with "/". cbn [OsPath.rstrip_sep OsPath.all_sep].
    assert (Hx : Ascii.eqb x "/" = false).
    { destruct (Ascii.eqb_spec x "/") as [->|]; [discriminate E | done]. }
    cbn. by rewrite Hx.
  - destruct IH as [Hstrip Hall]; [done | done |].
    cbn [OsPath.rstrip_sep OsPath.all_sep]. rewrite Hstrip, Hall.
    split; [done | apply andb_false_r].
Qed.

Lemma split_dir_name dir name :
  dir <> "" -> PyStr.endswith dir "/" = false -> OsPath.rfind "/" name = None ->
  OsPath.split (dir +:+ "/" +:+ name) = (dir, name).
Proof.
  intros Hd He Hn. unfold OsPath.split.
  assert (Hi : OsPath.after_last_sep (dir +:+ "/" +:+ name) = String.length (dir +:+ "/")).
  { unfold OsPath.after_last_sep. rewrite <- app_assoc_str.
    rewrite rfind_app_none by done. rewrite (rfind_app_some _ _ _ 0) by done.
    rewrite length_app_str. simpl. lia. }
  rewrite Hi, <- app_assoc_str, substring_app_prefix, drop_app.
  destruct (rstrip_sep_app dir Hd He) as [-> ->]. done.
Qed.

(** X11. For a path [dir/name] that does not exist, where [dir] is not
    empty and does not end with a separator and [name] has none, the clone is
    asked of the repository at [dir], with [name] as the directory to clone
    into, and [dir] joined with [name] is the path again.  [name] may be
    empty: a path with one separator at its end is cloned into the empty name
    under the path without it. *)
Theorem assets_setup_clone_target dir name branch repo w :
  dir <> "" -> PyStr.endswith dir "/" = false -> OsPath.rfind "/" name = None ->
  exists_ w (dir +:+ "/" +:+ name) = false ->
  git_ops (snd (assets_setup git_ok (dir +:+ "/" +:+ name) branch repo w))
    = git_ops w ++ [Clone dir repo name branch] /\
  OsPath.join dir [name] = dir +:+ "/" +:+ name.
Proof.
  intros Hd He Hn Hex. split.
  - unfold assets_setup. rewrite Hex, (split_dir_name dir name Hd He Hn).
    by destruct (git_ok _).
  - rewrite join_single. unfold OsPath.join2.
    rewrite (rfind_none_relative _ Hn), He.
    destruct (String.eqb_spec dir "") as [->|_]; [done | done].
Qed.

End AssetEdgeFacts.

(** ** More on the derived names *)

Section NameFacts.

Import PdfTasks.

Lemma length_substring_prefix s : forall n,
  String.length (String.substring 0 n s) = Nat.min n (String.length s).
Proof.
  induction s as [|x s IH]; intros [|n]; cbn [String.substring String.length]; try done.
  by rewrite IH.
Qed.

Lemma drop_last_absolute n o r :
  PyStr.startswith (PyStr.drop_last n o +:+ String "-" r) "/" = true ->
  PyStr.startswith o "/" = true.
Proof.
  unfold PyStr.drop_last, PyStr.startswith.
  destruct o as [|x o]; cbn [String.length].
  - destruct (0 - n); cbn [String.substring]; change ("" +:+ ?s) with s;
      cbn [String.prefix]; by destruct (ascii_dec "/" "-").
  - destruct (S (String.length o) - n) as [|m]; cbn [String.substring].
    + change ("" +:+ ?s) with s. cbn [String.prefix]. by destruct (ascii_dec "/" "-").
    + change (String x ?a +:+ ?s) with (String x (a +:+ s)). cbn [String.prefix].
      destruct (ascii_dec "/" x); [|done]. intros _. by destruct o.
Qed.

(** X12. For every entry and all directories, the processed path and the
    source path handed to [process_page] are different strings. *)
Theorem processed_differs_from_source c ldir dpath i :
  let d := describe ldir dpath c i in
  i_processed d <> i_source d.
Proof.
  intros d. unfold d, describe. cbn [i_processed i_source]. rewrite !join_single.
  set (o := output i). set (t := tagged_name i +:+ ".tex").
  assert (Hlen : String.length o < String.length t).
  { unfold t, tagged_name, PyStr.drop_last. fold o.
    rewrite !length_app_str, length_substring_prefix. simpl. lia. }
  destruct (PyStr.startswith o "/") eqn:Ho.
  - rewrite (join2_absolute _ _ Ho). intros Heq.
    pose proof (join2_length_ge ldir t) as Hge. rewrite Heq in Hge. lia.
  - destruct (PyStr.startswith t "/") eqn:Ht.
    + unfold t in Ht. rewrite tagged_tex_shape in Ht.
      apply drop_last_absolute in Ht. fold o in Ht. congruence.
    + intros Heq. apply join2_relative_inj in Heq; [|done|done].
      rewrite Heq in Hlen. lia.
Qed.

(** Characters passed over after a match are not looked at. *)
Lemma replace_scan_skip old new u v :
  PyStr.replace_scan old new (u +:+ v) (String.length u) = PyStr.replace_scan old new v 0.
Proof.
  induction u as [|x u IH]; [done|].
  change (String x u +:+ v) with (String x (u +:+ v)).
  by cbn [String.length PyStr.replace_scan].
Qed.

(** Up to the first position where the pattern occurs nothing is replaced. *)
Lemma replace_scan_keep old new pre rest :
  (forall k, k < String.length pre ->
             String.prefix old (PyStr.drop k (pre +:+ rest)) = false) ->
  PyStr.replace_scan old new (pre +:+ rest) 0 = pre +:+ PyStr.replace_scan old new rest 0.
Proof.
  induction pre as [|x pre IH]; intros H; [done|].
  change (String x pre +:+ ?s) with (String x (pre +:+ s)).
  cbn [PyStr.replace_scan].
  pose proof (H 0) as H0. cbn [PyStr.drop String.length] in H0.
  change (String x pre +:+ rest) with (String x (pre +:+ rest)) in H0.
  rewrite H0 by lia. f_equal. apply IH. intros k Hk.
  specialize (H (S k)). cbn [String.length] in H.
  change (String x pre +:+ rest) with (String x (pre +:+ rest)) in H.
  cbn [PyStr.drop] in H. apply H. lia.
Qed.

(** X13. When the branch suffix ['-' + branch] occurs in the deployed file
    name at no position inside the tagged name, the link name is the tagged
    name followed by [.pdf]. *)
Theorem link_name_is_tagged_name c i :
  (forall k, k < String.length (tagged_name i) ->
     String.prefix ("-" +:+ git_branches_current c) (PyStr.drop k (deploy_fn c i)) = false) ->
  link_name c i = tagged_name i +:+ ".pdf".
Proof.
  intros H. unfold link_name.
  change ("-" +:+ git_branches_current c) with (String "-" (git_branches_current c)) in *.
  unfold PyStr.replace. unfold deploy_fn in *.
  rewrite replace_scan_keep by exact H. f_equal.
  set (b := git_branches_current c).
  change ("-" +:+ b +:+ ".pdf") with (String "-" (b +:+ ".pdf")).
  cbn [PyStr.replace_scan].
  change (String "-" (b +:+ ".pdf")) with (String "-" b +:+ ".pdf").
  rewrite prefix_app. change ("" +:+ ?s) with s.
  cbn [String.length].
  replace (S (String.length b) - 1) with (String.length b) by lia.
  rewrite replace_scan_skip.
  cbn [PyStr.replace_scan String.prefix].
  repeat (match goal with
          | |- context [ascii_dec ?a ?b] => destruct (ascii_dec a b) as [E|_]; [discriminate E|]
          end).
  done.
Qed.

(** When the tag is the branch, the suffix occurs inside the tagged name and
    the link name loses the tag as well. *)
Example link_name_tag_is_branch :
  let c := {| paths_projectroot := "/docs"; paths_branch_output := "build/master";
              paths_public_site_output := "build/public"; project_name := "manual";
              project_edition := None; project_url := "http://docs.example.org";
              project_tag := "manual"; git_branches_current := "master";
              pdfs := None |} in
  let i := {| output := "guide.tex"; tag := "master"; others := [] |} in
  tagged_name i = "guide-master" /\ deploy_fn c i = "guide-master-master.pdf" /\
  link_name c i = "guide.pdf".
Proof. repeat split; reflexivity. Qed.

End NameFacts.

(** ** Instances of the properties that have hypotheses *)

(** A ['pdf'] run whose process at index 1 fails still succeeds. *)
Lemma render_succeeds_iff_witness :
  let run := Latex._render_tex_into_pdf (fails_at 1) "build/latex/manual-v1.tex"
               "public/manual-v1-release.pdf" "build/latex" "pdf" fresh_world in
  (exists cmds, Latex.build_cmds "build/latex/manual-v1.tex" "build/latex" "pdf" = Some cmds) /\
  run = (fst run, snd run) /\
  fst run = RNone /\
  copies (snd run) = [{| copy_source := "build/latex/manual-v1.pdf";
                         copy_target := "public/manual-v1-release.pdf";
                         copy_name := "pdf" |}].
Proof.
  intros run. split; [eexists; reflexivity|]. split; [apply surjective_pairing|].
  destruct (render_succeeds_iff (fails_at 1) "build/latex/manual-v1.tex"
              "public/manual-v1-release.pdf" "build/latex" "pdf" _ fresh_world
              (fst run) (snd run) eq_refl (surjective_pairing run)) as [Hiff Hsucc].
  assert (Hr : fst run = RNone).
  { apply Hiff. intros k Hk. cbn [length] in Hk.
    do 4 (destruct k as [|k]; [first [lia | reflexivity]|]). lia. }
  split; [exact Hr|]. destruct (Hsucc Hr) as (_ & Hcp & _). exact Hcp.
Defined.

(** A ['dvi'] run whose processes at indices 1 and 3 fail stops at index 3. *)
Lemma render_stops_at_first_fatal_witness :
  let run := Latex._render_tex_into_pdf fails_at_1_and_3 "build/latex/manual-v1.tex"
               "public/manual-v1-release.pdf" "build/latex" "dvi" fresh_world in
  let cmd := "pdflatex --output-format dvi --interaction batchmode --output-directory build/latex build/latex/manual-v1.tex" in
  (exists cmds, Latex.build_cmds "build/latex/manual-v1.tex" "build/latex" "dvi" = Some cmds /\
                cmds !! 3 = Some cmd) /\
  run = (fst run, snd run) /\ 2 <= 3 /\ fails_at_1_and_3 3 <> 0%Z /\
  (forall j, 2 <= j < 3 -> fails_at_1_and_3 j = 0%Z) /\
  fst run = RFalse /\ length (calls (snd run)) = 4 /\ copies (snd run) = [].
Proof.
  intros run cmd.
  assert (Hfirst : forall j, 2 <= j < 3 -> fails_at_1_and_3 j = 0%Z).
  { intros j Hj. assert (j = 2) as -> by lia. reflexivity. }
  assert (Hne : fails_at_1_and_3 3 <> 0%Z) by discriminate.
  split; [eexists; split; reflexivity|]. split; [apply surjective_pairing|].
  split; [lia|]. split; [exact Hne|]. split; [exact Hfirst|].
  destruct (render_stops_at_first_fatal fails_at_1_and_3 "build/latex/manual-v1.tex"
              "public/manual-v1-release.pdf" "build/latex" "dvi" _ fresh_world
              (fst run) (snd run) 3 cmd eq_refl (surjective_pairing run)
              (le_S _ _ (le_n 2)) eq_refl Hne Hfirst) as (Hr & Hcalls & _ & Hcp).
  split; [exact Hr|]. split; [|exact Hcp].
  rewrite Hcalls. reflexivity.
Defined.

(** The render task of the entry [manual.tex]. *)
Lemma render_copy_source_is_target_witness :
  let d := PdfTasks.describe "/docs/build/release/latex" "/docs/build/public"
             sample_conf manual_entry in
  OsPath.rfind "/" (tag manual_entry) = None /\
  copies (snd (Latex._render_tex_into_pdf all_succeed (i_processed d) (i_deployed d)
                 (i_path d) "pdf" fresh_world))
    = [{| copy_source := "/docs/build/release/latex/manual-v1.pdf";
          copy_target := "/docs/build/public/manual-v1-release.pdf";
          copy_name := "pdf" |}].
Proof.
  intros d. split; [reflexivity|].
  destruct (render_copy_source_is_target sample_conf "/docs/build/release/latex"
              "/docs/build/public" manual_entry "pdf" fresh_world eq_refl (or_introl eq_refl))
    as (_ & _ & Hcp).
  exact Hcp.
Defined.

(** The render task of the entry [manual.tex] in a ['dvi'] run. *)
Lemma render_commands_use_tagged_name_witness :
  let d := PdfTasks.describe "/docs/build/release/latex" "/docs/build/public"
             sample_conf manual_entry in
  let w' := snd (Latex._render_tex_into_pdf all_succeed (i_processed d) (i_deployed d)
                   (i_path d) "dvi" fresh_world) in
  OsPath.rfind "/" (PyStr.drop_last 4 (output manual_entry)) = None /\
  OsPath.rfind "/" (tag manual_entry) = None /\
  inv_args <$> calls w' !! 1
    = Some ["makeindex"; "-s"; "/docs/build/release/latex/python.ist";
            "/docs/build/release/latex/manual-v1.idx"] /\
  inv_args <$> calls w' !! 4
    = Some ["cd"; "/docs/build/release/latex;"; "dvipdf"; "manual-v1.dvi"].
Proof.
  intros d w'. split; [reflexivity|]. split; [reflexivity|].
  destruct (render_commands_use_tagged_name sample_conf "/docs/build/release/latex"
              "/docs/build/public" manual_entry fresh_world eq_refl eq_refl)
    as (_ & Hm & Hd).
  split.
  - exact (f_equal (fmap inv_args) Hm).
  - exact (f_equal (fmap inv_args) Hd).
Defined.

Lemma absolute_asset_path_ignores_root_witness :
  AssetTasks.assets sample_assets_conf = Some [docs_assets; shared_assets] /\
  In shared_assets [docs_assets; shared_assets] /\
  PyStr.startswith (AssetTasks.asset_path shared_assets) "/" = true /\
  In {| AssetTasks.a_job := AssetTasks.RmRf;
        AssetTasks.a_args := AssetTasks.Positional ["/srv/shared/assets"] |}
     (AssetTasks.tasks (AssetTasks.assets_clean sample_assets_conf empty_app)).
Proof.
  assert (Hin : In shared_assets [docs_assets; shared_assets]) by (right; left; reflexivity).
  split; [reflexivity|]. split; [exact Hin|]. split; [reflexivity|].
  exact (proj1 (absolute_asset_path_ignores_root sample_assets_conf empty_app
                  [docs_assets; shared_assets] shared_assets eq_refl Hin eq_refl)).
Defined.

Lemma assets_setup_clone_target_witness :
  "/docs/source" <> "" /\ PyStr.endswith "/docs/source" "/" = false /\
  OsPath.rfind "/" "assets" = None /\
  Assets.exists_ empty_fs "/docs/source/assets" = false /\
  Assets.git_ops (snd (Assets.assets_setup git_always_ok "/docs/source/assets" "master"
                         "git@example.org:docs/assets.git" empty_fs))
    = [Assets.Clone "/docs/source" "git@example.org:docs/assets.git" "assets" "master"].
Proof.
  assert (Hne : "/docs/source" <> "") by discriminate.
  split; [exact Hne|]. split; [reflexivity|]. split; [reflexivity|]. split; [reflexivity|].
  exact (proj1 (assets_setup_clone_target git_always_ok "/docs/source" "assets" "master"
                  "git@example.org:docs/assets.git" empty_fs Hne eq_refl eq_refl eq_refl)).
Defined.

Lemma link_name_is_tagged_name_witness :
  (forall k, k < String.length (PdfTasks.tagged_name manual_entry) ->
     String.prefix ("-" +:+ git_branches_current sample_conf)
       (PyStr.drop k (PdfTasks.deploy_fn sample_conf manual_entry)) = false) /\
  PdfTasks.link_name sample_conf manual_entry = "manual-v1.pdf".
Proof.
  assert (H : forall k, k < String.length (PdfTasks.tagged_name manual_entry) ->
     String.prefix ("-" +:+ git_branches_current sample_conf)
       (PyStr.drop k (PdfTasks.deploy_fn sample_conf manual_entry)) = false).
  { intros k Hk. change (k < 9) in Hk.
    do 9 (destruct k as [|k]; [reflexivity|]). lia. }
  split; [exact H|].
  exact (link_name_is_tagged_name sample_conf manual_entry H).
Defined.

(** X14. For every output format other than ['dvi'] and ['pdf'] the job
    assigns the search path, logs one error record naming the format, starts
    no process, requests no copy, and returns [None]. *)
Theorem render_unsupported_format exit_status fn deployed_path path output_format w :
  output_format <> "dvi" -> output_format <> "pdf" ->
  let '(r, w') :=
    Latex._render_tex_into_pdf exit_status fn deployed_path path output_format w in
  r = RNone /\
  calls w' = calls w /\
  copies w' = copies w /\
  log w' = log w ++ [(Error, "not rendering pdf because " +:+ output_format
                               +:+ " is not an output format")] /\
  environ w' = <["TEXINPUTS" := ".:" +:+ path +:+ ":"]> (environ w).
Proof.
  intros Hd Hp. unfold Latex._render_tex_into_pdf.
  by rewrite (build_cmds_unsupported _ _ _ Hd Hp).
Qed.

Lemma render_unsupported_format_witness :
  "html" <> "dvi" /\ "html" <> "pdf" /\
  Latex._render_tex_into_pdf all_succeed "build/latex/manual-v1.tex"
    "public/manual-v1-release.pdf" "build/latex" "html" fresh_world
  = (RNone,
     {| environ := <["TEXINPUTS" := ".:build/latex:"]> ∅;
        calls := [];
        log := [(Error, "not rendering pdf because html is not an output format")];
        copies := [] |}).
Proof.
  assert (Hd : "html" <> "dvi") by discriminate.
  assert (Hp : "html" <> "pdf") by discriminate.
  split; [exact Hd|]. split; [exact Hp|].
  pose proof (render_unsupported_format all_succeed "build/latex/manual-v1.tex"
                "public/manual-v1-release.pdf" "build/latex" "html" fresh_world Hd Hp) as H.
  destruct (Latex._render_tex_into_pdf _ _ _ _ _ _) as [r w'].
  destruct H as (-> & Hc & Hcp & Hl & He).
  destruct w' as [e c l cp]. cbn in Hc, Hcp, Hl, He. by subst.
Defined.

(** ** Asset synchronisation *)

Section AssetFacts.

Import Assets.

(** The last occurrence of a character cuts a string in two. *)
Lemma rfind_decompose c p : forall k,
  OsPath.rfind c p = Some k ->
  exists pre post, p = pre +:+ String c post /\ String.length pre = k /\
                   OsPath.rfind c post = None.
Proof.
  induction p as [|x p IH]; intros k; cbn [OsPath.rfind]; [done|].
  destruct (OsPath.rfind c p) as [j|] eqn:E.
  - intros [= <-]. destruct (IH j eq_refl) as (pre & post & -> & Hlen & Hpost).
    exists (String x pre), post. cbn [String.length]. by rewrite Hlen.
  - destruct (Ascii.eqb_spec x c) as [->|]; [|done].
    intros [= <-]. by exists "", p.
Qed.

Lemma all_sep_app a b : OsPath.all_sep (a +:+ b) = OsPath.all_sep a && OsPath.all_sep b.
Proof.
  induction a as [|x a IH]; [done|].
  change (String x a +:+ b) with (String x (a +:+ b)).
  cbn [OsPath.all_sep]. by rewrite IH, andb_assoc.
Qed.

Lemma rstrip_sep_app_sep h : OsPath.rstrip_sep (h +:+ "/") = OsPath.rstrip_sep h.
Proof.
  induction h as [|x h IH]; [done|].
  change (String x h +:+ "/") with (String x (h +:+ "/")).
  cbn [OsPath.rstrip_sep]. by rewrite IH.
Qed.

(** What [rstrip] takes away are separators. *)
Lemma rstrip_sep_decompose h :
  exists seps, OsPath.all_sep seps = true /\ h = OsPath.rstrip_sep h +:+ seps.
Proof.
  induction h as [|x h IH]; [by exists ""|].
  destruct IH as (seps & Hall & Hh). cbn [OsPath.rstrip_sep].
  destruct (OsPath.rstrip_sep h) as [|y r] eqn:E.
  - change ("" +:+ seps) with seps in Hh. subst h.
    destruct (Ascii.eqb_spec x "/") as [->|_].
    + exists (String "/" seps). split; [by cbn [OsPath.all_sep]; rewrite Hall | done].
    + by exists seps.
  - exists seps. split; [done|].
    change (String x (String y r) +:+ seps) with (String x (String y r +:+ seps)).
    by rewrite <- Hh.
Qed.

Lemma rstrip_sep_no_trailing h : PyStr.endswith (OsPath.rstrip_sep h) "/" = false.
Proof.
  induction h as [|x h IH]; [done|]. cbn [OsPath.rstrip_sep].
  destruct (OsPath.rstrip_sep h) as [|y r] eqn:E.
  - destruct (Ascii.eqb_spec x "/") as [->|Hne]; [done|].
    cbn [PyStr.endswith]. destruct (String.eqb_spec (String x "") "/") as [[= ->]|_]; done.
  - cbn [PyStr.endswith] in *.
    destruct (String.eqb_spec (String x (String y r)) "/") as [[=]|_]. exact IH.
Qed.

Lemma rstrip_sep_nonempty h : OsPath.all_sep h = false -> OsPath.rstrip_sep h <> "".
Proof.
  induction h as [|x h IH]; [done|]. cbn [OsPath.all_sep OsPath.rstrip_sep].
  destruct (OsPath.rstrip_sep h) as [|y r] eqn:E; [|done].
  destruct (Ascii.eqb x "/"); [|done]. cbn [andb]. intros H. by destruct (IH H).
Qed.

(** [os.path.split] cuts a path into a parent directory and a leaf name: the
    leaf has no separator, the path is the parent, then separators, then the
    leaf, and the parent is either made of separators only, with none after
    it, or not empty and without a separator at its end, with some after
    it. *)
Lemma split_spec p :
  OsPath.rfind "/" (snd (OsPath.split p)) = None /\
  exists seps, OsPath.all_sep seps = true /\
    p = fst (OsPath.split p) +:+ seps +:+ snd (OsPath.split p) /\
    ((seps = "" /\ OsPath.all_sep (fst (OsPath.split p)) = true) \/
     (seps <> "" /\ fst (OsPath.split p) <> "" /\
      PyStr.endswith (fst (OsPath.split p)) "/" = false)).
Proof.
  unfold OsPath.split, OsPath.after_last_sep.
  destruct (OsPath.rfind "/" p) as [k|] eqn:E.
  - destruct (rfind_decompose _ _ _ E) as (pre & post & -> & Hlen & Hpost).
    assert (Hcut : pre +:+ String "/" post = (pre +:+ "/") +:+ post)
      by (by rewrite app_assoc_str).
    assert (Hk : S k = String.length (pre +:+ "/"))
      by (rewrite length_app_str; simpl; lia).
    rewrite Hk, Hcut, substring_app_prefix, drop_app. cbn [fst snd].
    split; [done|].
    rewrite all_sep_app. change (OsPath.all_sep "/") with true. rewrite andb_true_r.
    destruct (OsPath.all_sep pre) eqn:Hall.
    + exists "". split; [done|]. split; [done|]. left.
      split; [done|]. by rewrite all_sep_app, Hall.
    + rewrite rstrip_sep_app_sep.
      destruct (rstrip_sep_decompose pre) as (seps & Hseps & Hpre).
      exists (seps +:+ "/"). split; [by rewrite all_sep_app, Hseps|].
      split; [by rewrite <- !app_assoc_str, <- Hpre|]. right.
      split; [by destruct seps|].
      split; [by apply rstrip_sep_nonempty | apply rstrip_sep_no_trailing].
  - assert (H0 : String.substring 0 0 p = "") by (by destruct p).
    rewrite H0. cbn [OsPath.all_sep PyStr.drop fst snd].
    split; [done|]. exists "". split; [done|]. split; [done|]. by left.
Qed.

(** ** C7 *)

(** C7. Every call starts exactly one git operation: a pull of [branch] in
    [path] when [path] exists, and otherwise a clone of [repo] at [branch]
    into the leaf name of [path] under its parent directory.  Parent and leaf
    are the two parts [os.path.split] gives: the leaf has no separator, the
    path is the parent, then separators, then the leaf, and the parent is
    either made of separators only (none follow it) or not empty and without
    a separator at its end (some follow it). *)
Theorem assets_setup_pull_or_clone git_ok path branch repo w :
  let parent := fst (OsPath.split path) in
  let leaf := snd (OsPath.split path) in
  git_ops (snd (assets_setup git_ok path branch repo w))
    = git_ops w ++
      [ if exists_ w path then Pull path branch
        else Clone parent repo leaf branch ] /\
  OsPath.rfind "/" leaf = None /\
  exists seps, OsPath.all_sep seps = true /\
    path = parent +:+ seps +:+ leaf /\
    ((seps = "" /\ OsPath.all_sep parent = true) \/
     (seps <> "" /\ parent <> "" /\ PyStr.endswith parent "/" = false)).
Proof.
  intros parent leaf. split; [|apply split_spec].
  unfold parent, leaf, assets_setup. destruct (exists_ w path).
  - by destruct (git_ok _).
  - destruct (OsPath.split path) as [base name]. by destruct (git_ok _).
Qed.

(** The clone asked for a path that does not exist yet. *)
Example assets_setup_clone_example :
  git_ops (snd (assets_setup git_always_ok "/docs/source/assets" "master"
                  "git@example.org:docs/assets.git" empty_fs))
    = [Clone "/docs/source" "git@example.org:docs/assets.git" "assets" "master"].
Proof. reflexivity. Qed.

End AssetFacts.
